(** * svg_to_juce.py: the SVG-to-JUCE layout converter

    A shallow embedding of [Source/Parser/svg_to_juce.py] and the properties
    its specification states about it.

    Modelling conventions.
    - Python [float]s are exact rationals ([Q]): [+], [-], [*], [/], [abs],
      [** 2], comparison and [round] are the exact operations, equality of
      floats is [Qeq] ([==]), and there is no infinity and no NaN.
    - Python [str]s are [string]s of bytes; the case conversions are the
      ASCII ones.
    - Python objects are records, and a method that assigns to [self]
      returns the new object.  Exceptions and [sys.exit] are the [Raise] and
      [Exit] outcomes of a computation.
    - What the interpreter's libraries compute and the types above cannot
      express (reading a float literal, [x ** 0.5], the formatting of
      numbers and values, the [json] codec) is the [PyRuntime] interface;
      [ref_runtime] is an executable instance of it.
    - The world is the files, the directories and what was printed.  The
      drawing is kept as the element tree [xml.etree.ElementTree] builds
      from it, every other file is text, and writing a file always
      succeeds.

    The model comes first: strings, numbers, JSON values, the element tree,
    then one module per class of the script and [main].  The definitions the
    statements need and the sample inputs follow, then the properties, each
    claim of the specification under its number.  Further properties of the
    script, numbered X1 onwards, come after the claims; the samples they
    are run on close the file. *)

From Stdlib Require Import QArith Qround Qabs Lqa ZArith String Ascii List Bool.
From stdpp Require Import gmap strings list pretty.
Import ListNotations.

Set Warnings "-register-all".

#[local] Open Scope string_scope.
#[local] Open Scope list_scope.

(** ** Strings *)

Module Str.

(** [s.startswith(p)] *)
Definition startswith (s p : string) : bool := String.prefix p s.

(** [s.endswith(p)] *)
Definition endswith (s p : string) : bool :=
  let n := String.length s in
  let m := String.length p in
  (m <=? n)%nat && String.eqb (String.substring (n - m) m s) p.

(** [p in s] for strings *)
Fixpoint contains (s p : string) : bool :=
  String.prefix p s ||
  match s with
  | EmptyString => false
  | String _ s' => contains s' p
  end.

(** [s.replace(old, new)] for a non-empty [old]: the occurrences of [old]
    are replaced from left to right, without overlap.  [skip] counts the
    characters of a replaced occurrence that are still to be dropped. *)
Fixpoint replace_from (old new : string) (skip : nat) (s : string) : string :=
  match s with
  | EmptyString => EmptyString
  | String c s' =>
      match skip with
      | S k => replace_from old new k s'
      | O =>
          if String.prefix old s
          then new +:+ replace_from old new (String.length old - 1) s'
          else String c (replace_from old new 0 s')
      end
  end.

Definition replace (s old new : string) : string := replace_from old new 0 s.

(** [s.split(sep)] for a one-character separator *)
Fixpoint split (s : string) (sep : ascii) : list string :=
  match s with
  | EmptyString => [EmptyString]
  | String c s' =>
      let r := split s' sep in
      if Ascii.eqb c sep then EmptyString :: r
      else match r with
           | [] => [String c EmptyString]
           | h :: t => String c h :: t
           end
  end.

Definition upper_ascii (c : ascii) : ascii :=
  let n := nat_of_ascii c in
  if (97 <=? n)%nat && (n <=? 122)%nat then ascii_of_nat (n - 32) else c.

Definition lower_ascii (c : ascii) : ascii :=
  let n := nat_of_ascii c in
  if (65 <=? n)%nat && (n <=? 90)%nat then ascii_of_nat (n + 32) else c.

Fixpoint map_ascii (f : ascii -> ascii) (s : string) : string :=
  match s with
  | EmptyString => EmptyString
  | String c s' => String (f c) (map_ascii f s')
  end.

(** [s.upper()] *)
Definition upper (s : string) : string := map_ascii upper_ascii s.

(** [s.capitalize()] *)
Definition capitalize (s : string) : string :=
  match s with
  | EmptyString => EmptyString
  | String c s' => String (upper_ascii c) (map_ascii lower_ascii s')
  end.

(** [sep.join(l)] *)
Fixpoint join (sep : string) (l : list string) : string :=
  match l with
  | [] => EmptyString
  | [s] => s
  | s :: l' => s +:+ sep +:+ join sep l'
  end.

(** [s[:n]] *)
Definition take (n : nat) (s : string) : string := String.substring 0 n s.

(** [s in l] for a list of strings *)
Definition mem (s : string) (l : list string) : bool :=
  existsb (String.eqb s) l.

End Str.

(** ** Numbers *)

(** [round(q)]: the nearest integer, a tie going to the even one. *)
Definition py_round (q : Q) : Z :=
  let f := Qfloor q in
  match (q - inject_Z f ?= 1 # 2)%Q with
  | Lt => f
  | Gt => (f + 1)%Z
  | Eq => if Z.even f then f else (f + 1)%Z
  end.

Definition Qltb (a b : Q) : bool := negb (Qle_bool b a).

(** ** Outcomes of a computation *)

Inductive exn :=
| ValueError | TypeError | AttributeError | ZeroDivisionError
| JSONDecodeError | ParseError | OSError.

Inductive outcome (A : Type) :=
| Ret (a : A)
| Raise (e : exn)
| Exit (code : Z).
Arguments Ret {A} a.
Arguments Raise {A} e.
Arguments Exit {A} code.

Definition obind {A B} (m : outcome A) (f : A -> outcome B) : outcome B :=
  match m with
  | Ret a => f a
  | Raise e => Raise e
  | Exit c => Exit c
  end.

Declare Scope py_scope.
Delimit Scope py_scope with py.
Notation "x <~ m ; k" := (obind m (fun x => k))
  (at level 100, m at next level, right associativity) : py_scope.

(** ** Decoded JSON values

    [json.load] yields [None], [bool], [int], [float], [str], [list] and
    [dict] values.  A [dict] keeps its entries in insertion order. *)

Inductive json :=
| JNull
| JBool (b : bool)
| JInt (z : Z)
| JFloat (q : Q)
| JStr (s : string)
| JArr (l : list json)
| JObj (kvs : list (string * json)).

(** [d[k]] of an entry list: the first entry with key [k]. *)
Fixpoint assoc {A} (kvs : list (string * A)) (k : string) : option A :=
  match kvs with
  | [] => None
  | (k', v) :: kvs' => if String.eqb k' k then Some v else assoc kvs' k
  end.

(** [d[k] = v]: an existing key keeps its place, a new one goes last. *)
Fixpoint assoc_set {A} (kvs : list (string * A)) (k : string) (v : A)
  : list (string * A) :=
  match kvs with
  | [] => [(k, v)]
  | (k', v') :: kvs' =>
      if String.eqb k' k then (k', v) :: kvs' else (k', v') :: assoc_set kvs' k v
  end.

(** Truth value of a decoded value, as [if v:] and [not v] take it. *)
Definition truthy (v : json) : bool :=
  match v with
  | JNull => false
  | JBool b => b
  | JInt z => negb (z =? 0)%Z
  | JFloat q => negb (Qeq_bool q 0)
  | JStr s => negb (String.eqb s "")
  | JArr l => match l with [] => false | _ => true end
  | JObj kvs => match kvs with [] => false | _ => true end
  end.

(** [v == 'text'] for a string literal *)
Definition is_str (v : json) (s : string) : bool :=
  match v with
  | JStr s' => String.eqb s' s
  | _ => false
  end.

(** [v.get(k)] and [v.get(k, dflt)]: only a [dict] has the method. *)
Definition py_get (v : json) (k : string) : outcome (option json) :=
  match v with
  | JObj kvs => Ret (assoc kvs k)
  | _ => Raise AttributeError
  end.

Definition py_get_default (v : json) (k : string) (dflt : json) : outcome json :=
  match v with
  | JObj kvs => Ret (default dflt (assoc kvs k))
  | _ => Raise AttributeError
  end.

(** [k in v] for a string [k]: key of a [dict], element of a [list],
    substring of a [str]; other values are not containers. *)
Definition py_contains (v : json) (k : string) : outcome bool :=
  match v with
  | JObj kvs => Ret (bool_decide (is_Some (assoc kvs k)))
  | JArr l => Ret (existsb (fun x => is_str x k) l)
  | JStr s => Ret (Str.contains s k)
  | _ => Raise TypeError
  end.

(** [v.items()] *)
Definition py_items (v : json) : outcome (list (string * json)) :=
  match v with
  | JObj kvs => Ret kvs
  | _ => Raise AttributeError
  end.

(** ** The interpreter's libraries *)

Class PyRuntime := {
  (** [float(s)] of a string; [None] is [ValueError] *)
  py_float : string -> option Q;
  (** [x ** 0.5] *)
  pow_half : Q -> Q;
  (** [f"{x:.1f}"] *)
  format_1f : Q -> string;
  (** [f"{v}"] of a decoded JSON value *)
  py_str : json -> string;
  (** [json.load]; [None] is [JSONDecodeError] *)
  json_loads : string -> option json;
  (** [json.dump(_, indent=2)] *)
  json_dumps : json -> string
}.

(** ** The drawing: an element tree

    What [ET.parse(path).getroot()] returns: each element has its tag (with
    the namespace in braces), its attributes and its children in document
    order. *)

Inductive Element :=
  Elem { tag : string; attrib : gmap string string; children : list Element }.

(** [element.iter()]: the element and all its descendants, in document
    order. *)
Fixpoint iter_all (e : Element) : list Element :=
  match e with
  | Elem _ _ cs => e :: flat_map iter_all cs
  end.

(** [element.iter(t)] *)
Definition iter (t : string) (e : Element) : list Element :=
  List.filter (fun x => String.eqb (tag x) t) (iter_all e).

(** [element.get(k, '')] *)
Definition get_str (e : Element) (k : string) : string :=
  default "" (attrib e !! k).

Definition svg_circle : string := "{http://www.w3.org/2000/svg}circle".
Definition svg_rect : string := "{http://www.w3.org/2000/svg}rect".
Definition svg_g : string := "{http://www.w3.org/2000/svg}g".
Definition inkscape_label : string :=
  "{http://www.inkscape.org/namespaces/inkscape}label".

(** ** class SVGComponent *)

Module SVGComponent.

Record t := mk {
  id : string;
  type : string;
  x : Q;
  y : Q;
  width : Q;
  height : Q;
  radius : Q;
  label : string;
  section : string
}.

Definition set_section (c : t) (s : string) : t :=
  mk (id c) (type c) (x c) (y c) (width c) (height c) (radius c) (label c) s.

End SVGComponent.

Abbreviation component := SVGComponent.t.

(** ** class SVGParser *)

Module SVGParser.
Section WithRuntime.
Context {rt : PyRuntime}.

(** [float(element.get(k, 0))]: the attribute's text converted, [0.0] when
    the attribute is absent. *)
Definition get_float (e : Element) (k : string) : outcome Q :=
  match attrib e !! k with
  | None => Ret 0%Q
  | Some s =>
      match py_float s with
      | Some q => Ret q
      | None => Raise ValueError
      end
  end.

Definition decorative_prefixes : list string :=
  ["grain_particle"; "midi_dot"; "kbd_key"].

Definition _parse_circle (element : Element) : outcome (option component) :=
  let element_id := get_str element "id" in
  if String.eqb element_id ""
     || existsb (Str.startswith element_id) decorative_prefixes
  then Ret None
  else
    (cx <~ get_float element "cx";
     cy <~ get_float element "cy";
     r <~ get_float element "r";
     Ret (Some (SVGComponent.mk element_id "circle" cx cy 0 0 r "" "")))%py.

Definition skip_ids : list string :=
  ["panel_background"; "header_bg"; "waveform_path"].

Definition _parse_rect (element : Element) : outcome (option component) :=
  let element_id := get_str element "id" in
  if String.eqb element_id ""
     || Str.endswith element_id "_border"
     || Str.mem element_id skip_ids
  then Ret None
  else
    (x <~ get_float element "x";
     y <~ get_float element "y";
     width <~ get_float element "width";
     height <~ get_float element "height";
     Ret (Some (SVGComponent.mk element_id "rect" x y width height 0 "" "")))%py.

(** The loop [for e in es: comp = f(e); if comp: components.append(comp)]. *)
Fixpoint collect (f : Element -> outcome (option component))
    (es : list Element) : outcome (list component) :=
  match es with
  | [] => Ret []
  | e :: es' =>
      (c <~ f e;
       rest <~ collect f es';
       Ret (match c with Some c => c :: rest | None => rest end))%py
  end.

(** Whether [group.iter()] meets an element whose [id] is the component's. *)
Definition in_group (group : Element) (c : component) : bool :=
  existsb
    (fun elem => bool_decide (attrib elem !! "id" = Some (SVGComponent.id c)))
    (iter_all group).

(** One round of the outer loop of [_assign_sections]. *)
Definition assign_group (comps : list component) (group : Element)
  : list component :=
  let section_label := get_str group inkscape_label in
  if String.eqb section_label "" then comps
  else
    map (fun c => if in_group group c
                  then SVGComponent.set_section c section_label else c)
        comps.

Definition _assign_sections (root : Element) (comps : list component)
  : list component :=
  fold_left assign_group (iter svg_g root) comps.

Definition parse (root : Element) : outcome (list component) :=
  (circles <~ collect _parse_circle (iter svg_circle root);
   rects <~ collect _parse_rect (iter svg_rect root);
   Ret (_assign_sections root (circles ++ rects)))%py.

End WithRuntime.
End SVGParser.

(** ** The world outside the program *)

Inductive file :=
| TextFile (text : string)
| XmlFile (root : Element).

Record World := mkWorld {
  files : gmap string file;
  dirs : gset string;
  stdout : list string
}.

(** A computation with effects on the world.  The world is kept when an
    exception is raised: what was printed or written before stays. *)
Definition M (A : Type) : Type := World -> outcome A * World.

Definition ret {A} (a : A) : M A := fun w => (Ret a, w).

Definition bind {A B} (m : M A) (f : A -> M B) : M B :=
  fun w =>
    match m w with
    | (Ret a, w') => f a w'
    | (Raise e, w') => (Raise e, w')
    | (Exit c, w') => (Exit c, w')
    end.

Definition lift {A} (o : outcome A) : M A := fun w => (o, w).

Declare Scope io_scope.
Delimit Scope io_scope with io.
Notation "x <- m ;; k" := (bind m (fun x => k))
  (at level 100, m at next level, right associativity) : io_scope.
Notation "m ;; k" := (bind m (fun _ => k))
  (at level 100, right associativity) : io_scope.

(** [print(s)]: one entry of [stdout] per call *)
Definition print (s : string) : M unit :=
  fun w => (Ret tt, mkWorld (files w) (dirs w) (stdout w ++ [s])).

(** [sys.exit(code)] *)
Definition sys_exit {A} (code : Z) : M A := fun w => (Exit code, w).

(** [os.path.exists(p)], [Path.exists()] *)
Definition path_exists (p : string) : M bool :=
  fun w => (Ret (bool_decide (is_Some (files w !! p)) || bool_decide (p ∈ dirs w)), w).

(** [open(p, 'r').read()] *)
Definition read_file (p : string) : M file :=
  fun w =>
    match files w !! p with
    | Some f => (Ret f, w)
    | None => (Raise OSError, w)
    end.

(** [open(p, 'w').write(s)] *)
Definition write_text (p s : string) : M unit :=
  fun w => (Ret tt, mkWorld (<[p := TextFile s]> (files w)) (dirs w) (stdout w)).

(** [os.makedirs(d, exist_ok=True)] *)
Definition makedirs (d : string) : M unit :=
  fun w => (Ret tt, mkWorld (files w) ({[d]} ∪ dirs w) (stdout w)).

(** [os.path.join(d, name)] for a relative [name] *)
Definition os_path_join (d name : string) : string :=
  if String.eqb d "" then name
  else if Str.endswith d "/" then d +:+ name
  else d +:+ "/" +:+ name.

(** [str(Path(d) / name)] for a normalised [d] and a relative [name] *)
Definition pathlib_join (d name : string) : string :=
  if String.eqb d "." then name else os_path_join d name.

(** ** class ComponentMapper *)

Module ComponentMapper.

Record t := mk {
  mapping_file : string;
  mapping : json;
  config : json
}.

Definition __init__ (mapping_file : string) : t :=
  mk mapping_file (JObj []) (JObj []).

Section WithRuntime.
Context {rt : PyRuntime}.

Definition load (self : t) : M t :=
  (present <- path_exists (mapping_file self);;
   if present : bool then
     f <- read_file (mapping_file self);;
     match f with
     | TextFile text =>
         match json_loads text with
         | Some data =>
             config' <- lift (py_get_default data "config" (JObj []));;
             mapping' <- lift (py_get_default data "components" (JObj []));;
             ret (mk (mapping_file self) mapping' config')
         | None => lift (Raise JSONDecodeError)
         end
     | XmlFile _ => lift (Raise JSONDecodeError)
     end
   else ret self)%io.

(** The document [save] writes. *)
Definition document (self : t) : json :=
  JObj [("config", config self); ("components", mapping self)].

Definition save (self : t) : M unit :=
  write_text (mapping_file self) (json_dumps (document self)).

End WithRuntime.

(** [self.mapping.get(svg_id)]; Python's [None] for a missing key and a
    [null] entry are the one value [JNull]. *)
Definition get_component_info (self : t) (svg_id : string) : outcome json :=
  py_get_default (mapping self) svg_id JNull.

Definition detect_component_type (c : component) : string :=
  let svg_id := SVGComponent.id c in
  if Str.startswith svg_id "knob_" then "OccultKnob"
  else if Str.endswith svg_id "_btn" then "TextButton"
  else if Str.startswith svg_id "mod_" then "ModButton"
  else
    let display :=
      if Str.contains svg_id "visualizer" || Str.contains svg_id "display" then
        if Str.contains svg_id "waveform" then Some "WaveformDisplay"
        else if Str.contains svg_id "grain" then Some "GrainVisualizer"
        else if Str.contains svg_id "lfo" then Some "LFOVisualizer"
        else None
      else None in
    match display with
    | Some ty => ty
    | None =>
        if Str.contains svg_id "waveform_box" || Str.contains svg_id "dropdown"
        then "ComboBox"
        else if Str.contains svg_id "indicator" then "Indicator"
        else "Unknown"
    end.

End ComponentMapper.

(** ** class CoordinateConverter *)

Module CoordinateConverter.

Record t := mk {
  svg_width_mm : Q;
  svg_height_mm : Q;
  juce_width_px : Z;
  juce_height_px : Z;
  scale_x : Q;
  scale_y : Q
}.

(** The constructor: both scale factors are computed here, and nowhere
    else.  A zero physical size makes the division raise. *)
Definition __init__ (svg_width_mm svg_height_mm : Q)
    (juce_width_px juce_height_px : Z) : outcome t :=
  if Qeq_bool svg_width_mm 0 then Raise ZeroDivisionError
  else if Qeq_bool svg_height_mm 0 then Raise ZeroDivisionError
  else Ret (mk svg_width_mm svg_height_mm juce_width_px juce_height_px
              (inject_Z juce_width_px / svg_width_mm)
              (inject_Z juce_height_px / svg_height_mm)).

(** [CoordinateConverter()] with the default sizes *)
Definition with_defaults : outcome t := __init__ 225 190 850 720.

Definition to_juce (self : t) (x_mm y_mm : Q) : Z * Z :=
  let x_px := py_round (x_mm * scale_x self) in
  let y_px := py_round (y_mm * scale_y self) in
  (x_px, y_px).

Definition size_to_juce (self : t) (width_mm height_mm : Q) : Z * Z :=
  let width_px := py_round (width_mm * scale_x self) in
  let height_px := py_round (height_mm * scale_y self) in
  (width_px, height_px).

End CoordinateConverter.

(** ** class CodeGenerator *)

Definition dquote : string := String (ascii_of_nat 34) EmptyString.

(** [comp_type in [...]] for a decoded value and a list of string literals *)
Definition one_of (v : json) (l : list string) : bool :=
  existsb (is_str v) l.

Definition hidden_types : list string := ["ModButton"; "Indicator"; "Unknown"].
Definition display_types : list string :=
  ["WaveformDisplay"; "GrainVisualizer"; "LFOVisualizer"].
Definition hidden_sections : list string := ["Panel"; "Decorations"; "Header"].

(** The dictionary [sections]: the components of each section, the
    sections in the order their first component comes. *)
Definition group_by_section (comps : list component)
  : list (string * list component) :=
  fold_left
    (fun sections comp =>
       let section :=
         if String.eqb (SVGComponent.section comp) "" then "Other"
         else SVGComponent.section comp in
       assoc_set sections section (default [] (assoc sections section) ++ [comp]))
    comps [].

(** [sorted(sections.items())]: the keys are distinct, so the order is the
    order of the keys. *)
Fixpoint insert_sorted {A} (kv : string * A) (l : list (string * A))
  : list (string * A) :=
  match l with
  | [] => [kv]
  | kv' :: l' =>
      if String.leb (fst kv) (fst kv') then kv :: l
      else kv' :: insert_sorted kv l'
  end.

Definition sorted_items {A} (l : list (string * A)) : list (string * A) :=
  fold_right insert_sorted [] l.

(** The loop [for x in xs: lines.extend(f(x))] with a body that can raise. *)
Fixpoint concat_map {A} (f : A -> outcome (list string)) (xs : list A)
  : outcome (list string) :=
  match xs with
  | [] => Ret []
  | x :: xs' =>
      (here <~ f x;
       rest <~ concat_map f xs';
       Ret (here ++ rest))%py
  end.

Module CodeGenerator.

Record t := mk {
  components : list component;
  mapper : ComponentMapper.t;
  converter : CoordinateConverter.t
}.

Section WithRuntime.
Context {rt : PyRuntime}.

(** [f"{v}"]: a string is itself, any other value as the runtime prints it. *)
Definition fmt (v : json) : string :=
  match v with
  | JStr s => s
  | _ => py_str v
  end.

Definition header_line (self : t) (comp : component) : outcome (list string) :=
  (info <~ ComponentMapper.get_component_info (mapper self) (SVGComponent.id comp);
   if negb (truthy info)
   then Ret ["// UNMAPPED: " +:+ SVGComponent.id comp]
   else
     comp_type <~ py_get_default info "type" (JStr "Unknown");
     member_name <~ py_get_default info "member" (JStr (SVGComponent.id comp));
     label <~ py_get_default info "label" (JStr "");
     if one_of comp_type hidden_types then Ret []
     else if is_str comp_type "OccultKnob" then
       Ret ["OccultKnob " +:+ fmt member_name +:+ "{" +:+ dquote
              +:+ fmt label +:+ dquote +:+ "};"]
     else if is_str comp_type "TextButton" then
       Ret ["juce::TextButton " +:+ fmt member_name +:+ "{" +:+ dquote
              +:+ fmt label +:+ dquote +:+ "};"]
     else if is_str comp_type "ComboBox" then
       Ret ["juce::ComboBox " +:+ fmt member_name +:+ ";"]
     else if one_of comp_type display_types then
       Ret [fmt comp_type +:+ " " +:+ fmt member_name +:+ ";"]
     else Ret [])%py.

(** The lines of one section, for a body [f] run on each of its components;
    a section of [hidden_sections] gives none. *)
Definition section_lines (f : component -> outcome (list string))
    (kv : string * list component) : outcome (list string) :=
  let '(section, comps) := kv in
  if Str.mem section hidden_sections then Ret []
  else
    (body <~ concat_map f comps;
     Ret (("// " +:+ section) :: body ++ [""]))%py.

Definition generate_header_snippet (self : t) : outcome string :=
  (body <~ concat_map (section_lines (header_line self))
             (sorted_items (group_by_section (components self)));
   Ret (Str.join (String (ascii_of_nat 10) EmptyString)
          (["// AUTO-GENERATED from SR.svg - Review before integrating";
            "// Member variable declarations";
            ""] ++ body)))%py.

Definition setup_line (self : t) (comp : component) : outcome (list string) :=
  (info <~ ComponentMapper.get_component_info (mapper self) (SVGComponent.id comp);
   if negb (truthy info) then Ret []
   else
     ty <~ py_get_default info "type" JNull;
     if negb (is_str ty "OccultKnob") then Ret []
     else
       member_name <~ py_get_default info "member" (JStr "");
       param_id <~ py_get_default info "paramId" (JStr "");
       label <~ py_get_default info "label" (JStr "");
       if truthy param_id then
         Ret ["setupKnob(" +:+ fmt member_name +:+ ", " +:+ fmt param_id
                +:+ ", " +:+ dquote +:+ fmt label +:+ dquote +:+ ");"]
       else Ret [])%py.

Definition visible_line (self : t) (comp : component) : outcome (list string) :=
  (info <~ ComponentMapper.get_component_info (mapper self) (SVGComponent.id comp);
   if negb (truthy info) then Ret []
   else
     member_name <~ py_get_default info "member" (JStr "");
     comp_type <~ py_get_default info "type" (JStr "");
     if one_of comp_type hidden_types then Ret []
     else if one_of comp_type
               (["OccultKnob"; "TextButton"; "ComboBox"] ++ display_types)
     then Ret ["addAndMakeVisible(" +:+ fmt member_name +:+ ");"]
     else Ret [])%py.

Definition generate_constructor_snippet (self : t) : outcome string :=
  (knobs <~ concat_map (setup_line self) (components self);
   visible <~ concat_map (visible_line self) (components self);
   Ret (Str.join (String (ascii_of_nat 10) EmptyString)
          (["// AUTO-GENERATED from SR.svg - Review before integrating";
            "// Constructor initialization";
            "";
            "// Setup knobs with parameter attachments"]
           ++ knobs ++ [""; "// Add components to visible"] ++ visible)))%py.

Definition bounds_lines (self : t) (comp : component) : outcome (list string) :=
  (info <~ ComponentMapper.get_component_info (mapper self) (SVGComponent.id comp);
   if negb (truthy info) then Ret []
   else
     member_name <~ py_get_default info "member" (JStr "");
     comp_type <~ py_get_default info "type" (JStr "");
     if one_of comp_type hidden_types then Ret []
     else
       let '(x_px, y_px) :=
         CoordinateConverter.to_juce (converter self)
           (SVGComponent.x comp) (SVGComponent.y comp) in
       if String.eqb (SVGComponent.type comp) "circle" then
         Ret [fmt member_name +:+ ".setBounds(";
              "    static_cast<int>(" +:+ pretty x_px
                +:+ " * scaleX) - knobWidth/2,  // SVG: "
                +:+ format_1f (SVGComponent.x comp) +:+ "mm";
              "    static_cast<int>(" +:+ pretty y_px
                +:+ " * scaleY) - knobHeight/2, // SVG: "
                +:+ format_1f (SVGComponent.y comp) +:+ "mm";
              "    knobWidth,";
              "    knobHeight";
              ");"]
       else
         let '(w_px, h_px) :=
           CoordinateConverter.size_to_juce (converter self)
             (SVGComponent.width comp) (SVGComponent.height comp) in
         Ret [fmt member_name +:+ ".setBounds(";
              "    static_cast<int>(" +:+ pretty x_px
                +:+ " * scaleX),  // SVG: "
                +:+ format_1f (SVGComponent.x comp) +:+ "mm";
              "    static_cast<int>(" +:+ pretty y_px
                +:+ " * scaleY),  // SVG: "
                +:+ format_1f (SVGComponent.y comp) +:+ "mm";
              "    static_cast<int>(" +:+ pretty w_px +:+ " * scaleX),";
              "    static_cast<int>(" +:+ pretty h_px +:+ " * scaleY)";
              ");"])%py.

Definition generate_resized_snippet (self : t) : outcome string :=
  (body <~ concat_map (section_lines (bounds_lines self))
             (sorted_items (group_by_section (components self)));
   Ret (Str.join (String (ascii_of_nat 10) EmptyString)
          (["// AUTO-GENERATED from SR.svg - Review before integrating";
            "// resized() method layout";
            "";
            "const float scaleX = getWidth() / 850.0f;";
            "const float scaleY = getHeight() / 720.0f;";
            "const int knobWidth = static_cast<int>(85 * scaleX);";
            "const int knobHeight = static_cast<int>(100 * scaleY);";
            ""] ++ body)))%py.

End WithRuntime.
End CodeGenerator.

(** ** class SVGToJUCEConverter *)

Definition newline : string := String (ascii_of_nat 10) EmptyString.

(** The loop [for s in ls: print(s)]. *)
Fixpoint print_lines (ls : list string) : M unit :=
  match ls with
  | [] => ret tt
  | s :: ls' => (print s;; print_lines ls')%io
  end.

(** One warning of [validate]: nothing for an empty list, otherwise the
    count with its title, one line per item and an empty line. *)
Definition warn (title : string) (items : list string) : M unit :=
  match items with
  | [] => ret tt
  | _ =>
      (print ("WARNING: " +:+ pretty (length items) +:+ title);;
       print_lines (map (fun item => "  - " +:+ item) items);;
       print "")%io
  end.

(** Truth value of a list *)
Definition nonempty {A} (l : list A) : bool :=
  match l with
  | [] => false
  | _ => true
  end.

Module SVGToJUCEConverter.

(** The [SVGParser] object of the converter: the path it was built from and
    the root of the tree it read.  Its [components] attribute holds what the
    last [parse] returned and is read nowhere. *)
Record parser_t := mk_parser {
  parser_svg_path : string;
  root : Element
}.

Record t := mk {
  svg_path : string;
  mapping_path : string;
  output_dir : string;
  parser : parser_t;
  mapper : ComponentMapper.t;
  converter : CoordinateConverter.t
}.

Definition set_mapper (self : t) (m : ComponentMapper.t) : t :=
  mk (svg_path self) (mapping_path self) (output_dir self) (parser self) m
     (converter self).

(** [SVGParser(svg_path)]: [ET.parse] reads the drawing. *)
Definition new_parser (svg_path : string) : M parser_t :=
  (f <- read_file svg_path;;
   match f with
   | XmlFile root => ret (mk_parser svg_path root)
   | TextFile _ => lift (Raise ParseError)
   end)%io.

Definition __init__ (svg_path mapping_path output_dir : string) : M t :=
  (parser <- new_parser svg_path;;
   converter <- lift CoordinateConverter.with_defaults;;
   ret (mk svg_path mapping_path output_dir parser
          (ComponentMapper.__init__ mapping_path) converter))%io.

Definition _suggest_member_name (svg_id comp_type : string) : string :=
  let name := Str.replace (Str.replace svg_id "knob_" "") "mod_" "" in
  let parts := Str.split name "_" in
  let name :=
    match parts with
    | p0 :: p1 :: rest => p0 +:+ Str.join "" (map Str.capitalize (p1 :: rest))
    | _ => name
    end in
  if String.eqb comp_type "OccultKnob" then name +:+ "Knob"
  else if String.eqb comp_type "TextButton" then name +:+ "Button"
  else if String.eqb comp_type "ComboBox" then name +:+ "Box"
  else name.

Definition param_map : list (string * string) :=
  [("knob_position", "ParamIDs::position");
   ("knob_size", "ParamIDs::grainSize");
   ("knob_density", "ParamIDs::density");
   ("knob_pitch", "ParamIDs::pitch");
   ("knob_spray", "ParamIDs::spray");
   ("knob_pan", "ParamIDs::panSpread");
   ("knob_gatk", "ParamIDs::grainAttack");
   ("knob_grel", "ParamIDs::grainRelease");
   ("knob_attack", "ParamIDs::voiceAttack");
   ("knob_decay", "ParamIDs::voiceDecay");
   ("knob_sustain", "ParamIDs::voiceSustain");
   ("knob_release", "ParamIDs::voiceRelease");
   ("knob_lfo_rate", "ParamIDs::lfoRate");
   ("knob_lfo_amount", "ParamIDs::lfoAmount");
   ("lfo_waveform_box", "ParamIDs::lfoWaveform");
   ("knob_delay", "ParamIDs::delayTime");
   ("knob_flutter", "ParamIDs::flutter");
   ("knob_hiss", "ParamIDs::tapeHiss");
   ("knob_damage", "ParamIDs::damage");
   ("knob_life", "ParamIDs::life");
   ("knob_reverb", "ParamIDs::reverb");
   ("knob_feedback", "ParamIDs::feedback");
   ("knob_mix", "ParamIDs::mix");
   ("knob_output", "ParamIDs::output");
   ("sample_gain_knob", "ParamIDs::sampleGain")].

Definition _suggest_param_id (svg_id : string) : string :=
  default "" (assoc param_map svg_id).

Definition _suggest_label (svg_id : string) : string :=
  let label :=
    Str.replace (Str.replace (Str.replace svg_id "knob_" "") "mod_" "") "_btn" "" in
  if String.eqb label "size" then "SIZE"
  else if String.eqb label "gatk" then "G.ATK"
  else if String.eqb label "grel" then "G.REL"
  else if String.eqb label "pan" then "PAN"
  else if String.eqb label "lfo_rate" then "RATE"
  else if String.eqb label "lfo_amount" then "AMOUNT"
  else if String.eqb label "delay" then "DELAY"
  else Str.upper (Str.replace label "_" " ").

(** The entry [init_mapping] writes for a component. *)
Definition suggest_entry (comp : component) : json :=
  let comp_type := ComponentMapper.detect_component_type comp in
  let member_name := _suggest_member_name (SVGComponent.id comp) comp_type in
  let param_id := _suggest_param_id (SVGComponent.id comp) in
  let label := _suggest_label (SVGComponent.id comp) in
  JObj ([("type", JStr comp_type);
         ("member", JStr member_name);
         ("label", JStr label)]
        ++ (if String.eqb param_id "" then [] else [("paramId", JStr param_id)])
        ++ (if String.eqb comp_type "OccultKnob"
            then [("modulation", JBool true)] else [])).

(** The loop of [init_mapping] that builds the new [mapping]; [old] is the
    mapping the mapper holds. *)
Fixpoint build_mapping (old : json) (comps : list component)
    (mapping : list (string * json)) : outcome (list (string * json)) :=
  match comps with
  | [] => Ret mapping
  | comp :: comps' =>
      (mapped <~ py_contains old (SVGComponent.id comp);
       if mapped : bool then build_mapping old comps' mapping
       else build_mapping old comps'
              (assoc_set mapping (SVGComponent.id comp) (suggest_entry comp)))%py
  end.

Definition default_config : json :=
  JObj [("svg_width_mm", JInt 225); ("svg_height_mm", JInt 190);
        ("juce_width_px", JInt 850); ("juce_height_px", JInt 720)].

Section WithRuntime.
Context {rt : PyRuntime}.

Definition init_mapping (self : t) : M t :=
  (print ("Parsing " +:+ svg_path self +:+ "...");;
   components <- lift (SVGParser.parse (root (parser self)));;
   print ("Found " +:+ pretty (length components) +:+ " components");;
   mapping <- lift (build_mapping (ComponentMapper.mapping (mapper self))
                      components []);;
   let mapper' :=
     ComponentMapper.mk (ComponentMapper.mapping_file (mapper self))
       (JObj mapping) default_config in
   ComponentMapper.save mapper';;
   print ("Generated mapping configuration: " +:+ mapping_path self);;
   print "Please review and adjust mappings as needed.";;
   ret (set_mapper self mapper'))%io.

(** *** The checks of [validate] *)

(** [unmapped]: the identifiers of the components that are no key of the
    mapping, in the order of the components. *)
Fixpoint find_unmapped (mapping : json) (comps : list component)
  : outcome (list string) :=
  match comps with
  | [] => Ret []
  | comp :: comps' =>
      (mapped <~ py_contains mapping (SVGComponent.id comp);
       rest <~ find_unmapped mapping comps';
       Ret (if mapped : bool then rest else SVGComponent.id comp :: rest))%py
  end.

Fixpoint unknown_entries (items : list (string * json)) : outcome (list string) :=
  match items with
  | [] => Ret []
  | (comp_id, info) :: items' =>
      (ty <~ py_get_default info "type" JNull;
       rest <~ unknown_entries items';
       Ret (if is_str ty "Unknown" then comp_id :: rest else rest))%py
  end.

Definition find_unknown_type (mapping : json) : outcome (list string) :=
  (items <~ py_items mapping; unknown_entries items)%py.

(** The guard of the overlap check:
    [not info or info.get('type') in ['ModButton', 'Indicator', 'Unknown']]. *)
Definition skipped (m : ComponentMapper.t) (comp : component) : outcome bool :=
  (info <~ ComponentMapper.get_component_info m (SVGComponent.id comp);
   if negb (truthy info) then Ret true
   else
     ty <~ py_get_default info "type" JNull;
     Ret (one_of ty hidden_types))%py.

(** [distance] of two components *)
Definition distance (comp1 comp2 : component) : Q :=
  let dx := Qabs (SVGComponent.x comp1 - SVGComponent.x comp2) in
  let dy := Qabs (SVGComponent.y comp1 - SVGComponent.y comp2) in
  pow_half (dx ^ 2 + dy ^ 2).

(** The inner loop: [comp1] against each later component. *)
Fixpoint overlaps_with (m : ComponentMapper.t) (comp1 : component)
    (later : list component) : outcome (list (string * string * Q)) :=
  match later with
  | [] => Ret []
  | comp2 :: later' =>
      (skip <~ skipped m comp2;
       if skip : bool then overlaps_with m comp1 later'
       else
         rest <~ overlaps_with m comp1 later';
         Ret (if Qltb (distance comp1 comp2) 2
              then (SVGComponent.id comp1, SVGComponent.id comp2,
                    distance comp1 comp2) :: rest
              else rest))%py
  end.

Fixpoint find_overlaps (m : ComponentMapper.t) (comps : list component)
  : outcome (list (string * string * Q)) :=
  match comps with
  | [] => Ret []
  | comp1 :: later =>
      (skip <~ skipped m comp1;
       if skip : bool then find_overlaps m later
       else
         here <~ overlaps_with m comp1 later;
         rest <~ find_overlaps m later;
         Ret (here ++ rest))%py
  end.

Definition overlap_item (o : string * string * Q) : string :=
  let '(comp1_id, comp2_id, dist) := o in
  comp1_id +:+ " & " +:+ comp2_id +:+ " (" +:+ format_1f dist +:+ "mm apart)".

Definition out_of_bounds (comp : component) : bool :=
  Qltb (SVGComponent.x comp) 0 || Qltb 225 (SVGComponent.x comp)
  || Qltb (SVGComponent.y comp) 0 || Qltb 190 (SVGComponent.y comp).

Definition find_out_of_bounds (comps : list component) : list string :=
  map SVGComponent.id (List.filter out_of_bounds comps).

Definition no_mapping_error : string :=
  "ERROR: No mapping configuration found. Run with --init first.".

Definition validate (self : t) : M t :=
  (mapper' <- ComponentMapper.load (mapper self);;
   let self := set_mapper self mapper' in
   if negb (truthy (ComponentMapper.mapping mapper')) then
     print no_mapping_error;;
     ret self
   else
     print ("Parsing " +:+ svg_path self +:+ "...");;
     components <- lift (SVGParser.parse (root (parser self)));;
     print ("Found " +:+ pretty (length components) +:+ " components" +:+ newline);;
     unmapped <- lift (find_unmapped (ComponentMapper.mapping mapper') components);;
     warn " unmapped SVG components:" unmapped;;
     unknown_type <- lift (find_unknown_type (ComponentMapper.mapping mapper'));;
     warn " components with Unknown type:" unknown_type;;
     overlaps <- lift (find_overlaps mapper' components);;
     warn " potential component overlaps:" (map overlap_item overlaps);;
     let oob := find_out_of_bounds components in
     warn " components outside SVG bounds:" oob;;
     (if negb (nonempty unmapped || nonempty unknown_type
                || nonempty overlaps || nonempty oob)
      then print "✓ Validation passed! No issues found."
      else print ("Validation complete with "
                    +:+ pretty (length unmapped + length unknown_type
                                + length overlaps + length oob)%nat
                    +:+ " warnings."));;
     ret self)%io.

Definition rule : string :=
  "============================================================".

Definition generate_code (self : t) (dry_run : bool) : M t :=
  (mapper' <- ComponentMapper.load (mapper self);;
   let self := set_mapper self mapper' in
   if negb (truthy (ComponentMapper.mapping mapper')) then
     print no_mapping_error;;
     ret self
   else
     print ("Parsing " +:+ svg_path self +:+ "...");;
     components <- lift (SVGParser.parse (root (parser self)));;
     print ("Found " +:+ pretty (length components) +:+ " components");;
     let generator := CodeGenerator.mk components mapper' (converter self) in
     print "Generating code snippets...";;
     header_snippet <- lift (CodeGenerator.generate_header_snippet generator);;
     constructor_snippet <-
       lift (CodeGenerator.generate_constructor_snippet generator);;
     resized_snippet <- lift (CodeGenerator.generate_resized_snippet generator);;
     if dry_run then
       print (newline +:+ rule);;
       print "DRY RUN - Generated code preview:";;
       print rule;;
       print (newline +:+ "--- header_snippet.hpp ---");;
       print (Str.take 500 header_snippet);;
       print ("..." +:+ newline);;
       print "--- constructor_snippet.cpp ---";;
       print (Str.take 500 constructor_snippet);;
       print ("..." +:+ newline);;
       print "--- resized_snippet.cpp ---";;
       print (Str.take 500 resized_snippet);;
       print ("..." +:+ newline);;
       print rule;;
       print "Use without --dry-run to write files.";;
       ret self
     else
       makedirs (output_dir self);;
       let header_file := os_path_join (output_dir self) "header_snippet.hpp" in
       let constructor_file :=
         os_path_join (output_dir self) "constructor_snippet.cpp" in
       let resized_file := os_path_join (output_dir self) "resized_snippet.cpp" in
       write_text header_file header_snippet;;
       print ("Generated: " +:+ header_file);;
       write_text constructor_file constructor_snippet;;
       print ("Generated: " +:+ constructor_file);;
       write_text resized_file resized_snippet;;
       print ("Generated: " +:+ resized_file);;
       print (newline +:+ "Code generation complete!");;
       print "Review the generated snippets before integrating into PluginEditor.";;
       ret self)%io.

End WithRuntime.
End SVGToJUCEConverter.

(** ** main *)

(** The command line after [argparse]: the three flags. *)
Record Args := mkArgs {
  init : bool;
  dry_run : bool;
  validate : bool
}.

Section Main.
Context {rt : PyRuntime}.

(** [main()], for the directory of the script and the parsed arguments. *)
Definition main (script_dir : string) (args : Args) : M unit :=
  let svg_path := pathlib_join script_dir "SR.svg" in
  let mapping_path := pathlib_join script_dir "component_mapping.json" in
  let output_dir := pathlib_join script_dir "generated" in
  (present <- path_exists svg_path;;
   if negb present then
     print ("ERROR: SVG file not found: " +:+ svg_path);;
     sys_exit 1
   else
     converter <- SVGToJUCEConverter.__init__ svg_path mapping_path output_dir;;
     if init args then
       SVGToJUCEConverter.init_mapping converter;; ret tt
     else if validate args then
       SVGToJUCEConverter.validate converter;; ret tt
     else if dry_run args then
       SVGToJUCEConverter.generate_code converter true;; ret tt
     else
       SVGToJUCEConverter.generate_code converter false;; ret tt)%io.

End Main.

(** ** A reference runtime

    An executable instance of [PyRuntime], for running the model on concrete
    drawings and mapping files: decimal literals for [float], a square root
    rounded down to 32 binary places, decimal formatting, and a JSON codec
    for documents whose strings need no escapes. *)

Module Ref.

Definition digit (c : ascii) : option Z :=
  let n := nat_of_ascii c in
  if (48 <=? n)%nat && (n <=? 57)%nat then Some (Z.of_nat (n - 48)) else None.

(** The leading digits of [s]: their value on top of [acc], their number,
    and the rest of [s]. *)
Fixpoint read_digits (s : string) (acc : Z) (n : nat) : Z * nat * string :=
  match s with
  | EmptyString => (acc, n, s)
  | String c s' =>
      match digit c with
      | Some d => read_digits s' (acc * 10 + d)%Z (S n)
      | None => (acc, n, s)
      end
  end.

(** [m * 10 ^ e] *)
Definition scale10 (m e : Z) : Q :=
  if (0 <=? e)%Z then inject_Z (m * 10 ^ e)
  else Qred (Qmake m (Z.to_pos (10 ^ (- e)))).

(** An exponent part [e12], [E-3], ..., or none. *)
Definition read_exponent (s : string) : option Z * string :=
  match s with
  | String c s' =>
      if Ascii.eqb c "e"%char || Ascii.eqb c "E"%char then
        let '(neg, s'') :=
          match s' with
          | String "-"%char r => (true, r)
          | String "+"%char r => (false, r)
          | _ => (false, s')
          end in
        let '(e, ne, r) := read_digits s'' 0 0 in
        match ne with
        | O => (None, s)
        | _ => (Some (if neg : bool then (- e)%Z else e), r)
        end
      else (None, s)
  | EmptyString => (None, s)
  end.

(** An unsigned decimal literal: digits, maybe a point and digits, maybe an
    exponent.  [strict] is the grammar of JSON, which wants a digit on both
    sides of the point.  The result says whether the literal is written as
    a float (with a point or an exponent). *)
Definition read_decimal (strict : bool) (s : string)
  : option (Q * bool * string) :=
  let '(i, ni, r) := read_digits s 0 0 in
  let '(m, nf, point, r) :=
    match r with
    | String "."%char r' =>
        let '(m, nf, r'') := read_digits r' i 0 in (m, nf, true, r'')
    | _ => (i, O, false, r)
    end in
  let well_formed :=
    if strict then negb (ni =? 0)%nat && (negb point || negb (nf =? 0)%nat)
    else negb ((ni =? 0)%nat && (nf =? 0)%nat) in
  if well_formed then
    match read_exponent r with
    | (Some e, r') => Some (scale10 m (e - Z.of_nat nf), true, r')
    | (None, r') => Some (scale10 m (- Z.of_nat nf), point, r')
    end
  else None.

Definition read_number (strict : bool) (s : string)
  : option (Q * bool * string) :=
  match s with
  | String "-"%char s' =>
      match read_decimal strict s' with
      | Some (q, fl, r) => Some (Qred (- q), fl, r)
      | None => None
      end
  | String "+"%char s' => if strict then None else read_decimal strict s'
  | _ => read_decimal strict s
  end.

Definition is_space (c : ascii) : bool :=
  let n := nat_of_ascii c in
  (n =? 32)%nat || (n =? 10)%nat || (n =? 13)%nat || (n =? 9)%nat.

Fixpoint skip_ws (s : string) : string :=
  match s with
  | String c s' => if is_space c then skip_ws s' else s
  | EmptyString => s
  end.

(** [float(s)] for a decimal literal, blanks around it allowed *)
Definition py_float (s : string) : option Q :=
  match read_number false (skip_ws s) with
  | Some (q, _, r) =>
      match skip_ws r with
      | EmptyString => Some q
      | _ => None
      end
  | None => None
  end.

Definition pow_half (q : Q) : Q :=
  Qred (inject_Z (Z.sqrt (Qfloor (q * inject_Z (4 ^ 32)))) / inject_Z (2 ^ 32)).

Fixpoint zeros (n : nat) : string :=
  match n with
  | O => EmptyString
  | S n' => String "0"%char (zeros n')
  end.

(** The decimal writing of [m / 10 ^ k], for [k] at least 1. *)
Definition decimal (m : Z) (k : nat) : string :=
  let p := (10 ^ Z.of_nat k)%Z in
  let frac := pretty (Z.abs m mod p)%Z in
  (if (m <? 0)%Z then "-" else "")
  +:+ pretty (Z.abs m / p)%Z +:+ "."
  +:+ zeros (k - String.length frac) +:+ frac.

Definition format_1f (q : Q) : string := decimal (py_round (q * 10)) 1.

(** The least [k], from [k] on and within [fuel] steps, such that [10 ^ k]
    is a multiple of [d]. *)
Fixpoint decimal_places (fuel k : nat) (d : Z) : option nat :=
  if (10 ^ Z.of_nat k mod d =? 0)%Z then Some k
  else match fuel with
       | O => None
       | S fuel' => decimal_places fuel' (S k) d
       end.

(** [repr(x)] of a float that has a finite decimal writing: all its
    digits, at least one after the point. *)
Definition format_float (q : Q) : string :=
  let q := Qred q in
  match decimal_places 400 1 (Zpos (Qden q)) with
  | Some k => decimal (Qnum q * (10 ^ Z.of_nat k / Zpos (Qden q))) k
  | None => format_1f q
  end.

Definition squote : string := String (ascii_of_nat 39) EmptyString.

(** [repr(v)] *)
Fixpoint py_repr (v : json) : string :=
  match v with
  | JNull => "None"
  | JBool true => "True"
  | JBool false => "False"
  | JInt z => pretty z
  | JFloat q => format_float q
  | JStr s => squote +:+ s +:+ squote
  | JArr l => "[" +:+ Str.join ", " (map py_repr l) +:+ "]"
  | JObj kvs =>
      "{" +:+ Str.join ", "
                (map (fun kv => squote +:+ fst kv +:+ squote +:+ ": "
                                +:+ py_repr (snd kv)) kvs)
      +:+ "}"
  end.

Definition py_str (v : json) : string :=
  match v with
  | JStr s => s
  | _ => py_repr v
  end.

(** The characters up to the closing quote, and what follows it. *)
Fixpoint read_string (s : string) : option (string * string) :=
  match s with
  | EmptyString => None
  | String c s' =>
      if (nat_of_ascii c =? 34)%nat then Some (EmptyString, s')
      else match read_string s' with
           | Some (str, r) => Some (String c str, r)
           | None => None
           end
  end.

Definition drop (n : nat) (s : string) : string :=
  String.substring n (String.length s - n) s.

(** A recursive-descent reader; every call on a shorter text takes one unit
    of [fuel]. *)
Fixpoint read_value (fuel : nat) (s : string) : option (json * string) :=
  match fuel with
  | O => None
  | S fuel' =>
      match skip_ws s with
      | EmptyString => None
      | String c r as s0 =>
          if (nat_of_ascii c =? 34)%nat then
            match read_string r with
            | Some (str, r') => Some (JStr str, r')
            | None => None
            end
          else if Ascii.eqb c "["%char then
            match skip_ws r with
            | String "]"%char r' => Some (JArr [], r')
            | _ => read_elements fuel' r []
            end
          else if Ascii.eqb c "{"%char then
            match skip_ws r with
            | String "}"%char r' => Some (JObj [], r')
            | _ => read_members fuel' r []
            end
          else if String.prefix "null" s0 then Some (JNull, drop 4 s0)
          else if String.prefix "true" s0 then Some (JBool true, drop 4 s0)
          else if String.prefix "false" s0 then Some (JBool false, drop 5 s0)
          else
            match read_number true s0 with
            | Some (q, true, r') => Some (JFloat q, r')
            | Some (q, false, r') => Some (JInt (Qfloor q), r')
            | None => None
            end
      end
  end
with read_elements (fuel : nat) (s : string) (acc : list json)
  : option (json * string) :=
  match fuel with
  | O => None
  | S fuel' =>
      match read_value fuel' s with
      | Some (v, r) =>
          match skip_ws r with
          | String ","%char r' => read_elements fuel' r' (acc ++ [v])
          | String "]"%char r' => Some (JArr (acc ++ [v]), r')
          | _ => None
          end
      | None => None
      end
  end
with read_members (fuel : nat) (s : string) (acc : list (string * json))
  : option (json * string) :=
  match fuel with
  | O => None
  | S fuel' =>
      match skip_ws s with
      | String c r =>
          if (nat_of_ascii c =? 34)%nat then
            match read_string r with
            | Some (k, r1) =>
                match skip_ws r1 with
                | String ":"%char r2 =>
                    match read_value fuel' r2 with
                    | Some (v, r3) =>
                        match skip_ws r3 with
                        | String ","%char r4 =>
                            read_members fuel' r4 (assoc_set acc k v)
                        | String "}"%char r4 => Some (JObj (assoc_set acc k v), r4)
                        | _ => None
                        end
                    | None => None
                    end
                | _ => None
                end
            | None => None
            end
          else None
      | EmptyString => None
      end
  end.

Definition json_loads (s : string) : option json :=
  match read_value (S (String.length s)) s with
  | Some (v, r) =>
      match skip_ws r with
      | EmptyString => Some v
      | _ => None
      end
  | None => None
  end.

Fixpoint spaces (n : nat) : string :=
  match n with
  | O => EmptyString
  | S n' => String " "%char (spaces n')
  end.

Definition quoted (s : string) : string := dquote +:+ s +:+ dquote.

(** [json.dumps(v, indent=2)] at nesting depth [ind] *)
Fixpoint write_value (ind : nat) (v : json) : string :=
  match v with
  | JNull => "null"
  | JBool true => "true"
  | JBool false => "false"
  | JInt z => pretty z
  | JFloat q => format_float q
  | JStr s => quoted s
  | JArr [] => "[]"
  | JArr l =>
      "[" +:+ newline +:+ spaces (ind + 2)
      +:+ Str.join ("," +:+ newline +:+ spaces (ind + 2))
            (map (write_value (ind + 2)) l)
      +:+ newline +:+ spaces ind +:+ "]"
  | JObj [] => "{}"
  | JObj kvs =>
      "{" +:+ newline +:+ spaces (ind + 2)
      +:+ Str.join ("," +:+ newline +:+ spaces (ind + 2))
            (map (fun kv => quoted (fst kv) +:+ ": "
                            +:+ write_value (ind + 2) (snd kv)) kvs)
      +:+ newline +:+ spaces ind +:+ "}"
  end.

Definition json_dumps (v : json) : string := write_value 0 v.

End Ref.

Definition ref_runtime : PyRuntime :=
  Build_PyRuntime Ref.py_float Ref.pow_half Ref.format_1f Ref.py_str
    Ref.json_loads Ref.json_dumps.

(** ** What a run leaves on standard output *)

(** The world after the lines [ls] were printed. *)
Definition emit (ls : list string) (w : World) : World :=
  mkWorld (files w) (dirs w) (stdout w ++ ls).

(** Standard output only grows: a computation has this property when, from
    every world, it leaves what was printed and adds to it. *)
Definition grows {A} (m : M A) : Prop :=
  forall w, exists rest, stdout (snd (m w)) = stdout w ++ rest.

(** The lines of one warning of [validate]. *)
Definition warn_lines (title : string) (items : list string) : list string :=
  match items with
  | [] => []
  | _ =>
      ("WARNING: " +:+ pretty (length items) +:+ title)
        :: map (fun item => "  - " +:+ item) items ++ [""]
  end.

(** ** Which elements the parser keeps *)

(** The test of [_parse_circle] that makes it return [None]. *)
Definition circle_skipped (e : Element) : bool :=
  String.eqb (get_str e "id") ""
  || existsb (Str.startswith (get_str e "id")) SVGParser.decorative_prefixes.

(** The test of [_parse_rect] that makes it return [None]. *)
Definition rect_skipped (e : Element) : bool :=
  String.eqb (get_str e "id") ""
  || Str.endswith (get_str e "id") "_border"
  || Str.mem (get_str e "id") SVGParser.skip_ids.

(** The identifiers of the circles that are kept, then of the rectangles
    that are kept, in document order. *)
Definition kept_ids (root : Element) : list string :=
  map (fun e => get_str e "id")
      (List.filter (fun e => negb (circle_skipped e)) (iter svg_circle root))
  ++ map (fun e => get_str e "id")
       (List.filter (fun e => negb (rect_skipped e)) (iter svg_rect root)).

(** A component without its section. *)
Definition erase_section (c : component) : component :=
  SVGComponent.set_section c "".

(** The components [f] yields on [es], for a run of [collect] that
    returns. *)
Definition yielded (f : Element -> outcome (option component))
    (es : list Element) : list component :=
  flat_map (fun e => match f e with Ret (Some c) => [c] | _ => [] end) es.

(** The attributes the parser converts to numbers. *)
Definition circle_attributes : list string := ["cx"; "cy"; "r"].
Definition rect_attributes : list string := ["x"; "y"; "width"; "height"].

(** Every numeric attribute that a kept circle or rectangle of the drawing
    carries is a text [float] accepts. *)
Definition numbers_readable {rt : PyRuntime} (root : Element) : Prop :=
  (forall e k s,
     In e (iter svg_circle root) -> circle_skipped e = false ->
     In k circle_attributes -> attrib e !! k = Some s -> is_Some (py_float s))
  /\ (forall e k s,
        In e (iter svg_rect root) -> rect_skipped e = false ->
        In k rect_attributes -> attrib e !! k = Some s -> is_Some (py_float s)).

(** ** Validation against a mapping whose entries are dictionaries *)

(** The [type] of a mapping entry, [None] when it has none. *)
Definition entry_type (info : json) : json :=
  match info with
  | JObj e => default JNull (assoc e "type")
  | _ => JNull
  end.


(** Every entry of the mapping is a dictionary. *)
Definition all_dicts (kvs : list (string * json)) : Prop :=
  Forall (fun kv => exists e, snd kv = JObj e) kvs.



Section Overlaps.
Context {rt : PyRuntime}.



End Overlaps.

(** ** Definitions for the further properties *)

From Stdlib Require Import Sorted Permutation.

(** An outcome that is a value or [ValueError]. *)
Definition value_or_ValueError {A} (o : outcome A) : Prop :=
  match o with
  | Ret _ => True
  | Raise e => e = ValueError
  | Exit _ => False
  end.

(** The labels of the labelled groups of the drawing that hold an element
    with identifier [i], in document order. *)
Definition labels_around (root : Element) (i : string) : list string :=
  map (fun g => get_str g inkscape_label)
    (List.filter
       (fun g =>
          negb (String.eqb (get_str g inkscape_label) "")
          && existsb (fun elem => bool_decide (attrib elem !! "id" = Some i))
               (iter_all g))
       (iter svg_g root)).

(** One round of [_assign_sections] on one component. *)
Definition assign_step (c : component) (group : Element) : component :=
  if String.eqb (get_str group inkscape_label) "" then c
  else if SVGParser.in_group group c
       then SVGComponent.set_section c (get_str group inkscape_label)
       else c.

(** A computation that leaves the files and the directories as they
    are, whatever its outcome. *)
Definition keeps_files {A} (m : M A) : Prop :=
  forall w, files (snd (m w)) = files w /\ dirs (snd (m w)) = dirs w.





(** The keys of the mapping whose entry has the type [Unknown]. *)
Definition unknown_keys (kvs : list (string * json)) : list string :=
  map fst (List.filter (fun kv => is_str (entry_type (snd kv)) "Unknown") kvs).


(** The mapping [init_mapping] builds for a mapper that holds no entry: the
    suggested entry of each component, stored under its identifier. *)
Definition suggested_mapping (comps : list component) : list (string * json) :=
  fold_left
    (fun m c =>
       assoc_set m (SVGComponent.id c) (SVGToJUCEConverter.suggest_entry c))
    comps [].



(** What the code generator can do with [mapping.get(id)]: nothing is
    there, the value counts as false, or it is a dictionary. *)
Definition usable_entry (o : option json) : bool :=
  match o with
  | None => true
  | Some (JObj _) => true
  | Some v => negb (truthy v)
  end.

(** The section a component is listed under in the snippets. *)
Definition section_key (c : component) : string :=
  if String.eqb (SVGComponent.section c) "" then "Other"
  else SVGComponent.section c.

(** The components of a list that are listed under a section. *)
Definition listed_under (s : string) (comps : list component)
  : list component :=
  List.filter (fun c => String.eqb (section_key c) s) comps.

(** A character of a label ready for display: no underscore and no
    lower-case letter of ASCII. *)
Definition display_char (c : ascii) : bool :=
  negb (Ascii.eqb c "_")
  && negb ((97 <=? nat_of_ascii c)%nat && (nat_of_ascii c <=? 122)%nat).

(** ** Sample drawings, mapping files and worlds *)

Definition element (t : string) (attrs : list (string * string))
    (cs : list Element) : Element :=
  Elem t (list_to_map attrs) cs.

Definition svg_root (cs : list Element) : Element :=
  element "{http://www.w3.org/2000/svg}svg"
    [("width", "225mm"); ("height", "190mm")] cs.

Definition sample_dir : string := "/plugin/Source/Parser".
Definition sample_svg_path : string := "/plugin/Source/Parser/SR.svg".
Definition sample_mapping_path : string :=
  "/plugin/Source/Parser/component_mapping.json".
Definition sample_output_dir : string := "/plugin/Source/Parser/generated".

(** The mapping file with the given entries. *)
Definition mapping_text (entries : list (string * json)) : string :=
  Ref.json_dumps
    (JObj [("config", SVGToJUCEConverter.default_config);
           ("components", JObj entries)]).

Definition knob_entry (member label : string) : json :=
  JObj [("type", JStr "OccultKnob"); ("member", JStr member);
        ("label", JStr label); ("modulation", JBool true)].


(** The world with a drawing and, maybe, a mapping file. *)
Definition world_with (drawing : Element) (mapping : option string) : World :=
  mkWorld
    (match mapping with
     | Some text =>
         <[sample_mapping_path := TextFile text]>
           {[sample_svg_path := XmlFile drawing]}
     | None => {[sample_svg_path := XmlFile drawing]}
     end)
    ∅ [].

(** The converter object [main] builds for a drawing. *)
Definition converter_for (drawing : Element) : SVGToJUCEConverter.t :=
  SVGToJUCEConverter.mk sample_svg_path sample_mapping_path sample_output_dir
    (SVGToJUCEConverter.mk_parser sample_svg_path drawing)
    (ComponentMapper.__init__ sample_mapping_path)
    (CoordinateConverter.mk 225 190 850 720
       (inject_Z 850 / 225) (inject_Z 720 / 190)).



(** Two knobs drawn at the same place and a third one elsewhere. *)
Definition stacked_knobs : Element :=
  svg_root
    [element svg_circle
       [("id", "knob_pan"); ("cx", "40.5"); ("cy", "30"); ("r", "6")] [];
     element svg_circle
       [("id", "knob_mix"); ("cx", "40.5"); ("cy", "30"); ("r", "6")] [];
     element svg_circle
       [("id", "knob_life"); ("cx", "100"); ("cy", "120"); ("r", "6")] [];
     element svg_rect
       [("id", "status_display"); ("x", "10"); ("y", "150");
        ("width", "60"); ("height", "12.5")] []].

Definition stacked_knobs_entries : list (string * json) :=
  [("knob_pan", knob_entry "panKnob" "PAN");
   ("knob_mix", knob_entry "mixKnob" "MIX");
   ("knob_life", knob_entry "lifeKnob" "LIFE");
   ("knob_gone", knob_entry "goneKnob" "GONE")].

(** Two circles that bear the same identifier. *)
Definition twin_circles : Element :=
  svg_root
    [element svg_circle [("id", "knob_pan"); ("cx", "40.5"); ("cy", "30")] [];
     element svg_circle [("id", "knob_pan"); ("cx", "80"); ("cy", "30")] []].

(** A keyboard drawn with rectangles, and a dot on one of its keys. *)
Definition keyboard : Element :=
  svg_root
    [element svg_g [("id", "keys"); (inkscape_label, "Decorations")]
       [element svg_rect
          [("id", "kbd_key_c4"); ("x", "5"); ("y", "170");
           ("width", "4"); ("height", "12")] [];
        element svg_circle
          [("id", "kbd_key_dot"); ("cx", "7"); ("cy", "176"); ("r", "1")] []]].

(** Shapes that carry an identifier and nothing else. *)
Definition bare_shapes : Element :=
  svg_root
    [element svg_circle [("id", "knob_mix")] [];
     element svg_rect [("id", "status_display")] []].

(** ** Samples for the further properties *)

(** The components the parser returns for [stacked_knobs]. *)
Definition stacked_knobs_comps : list component :=
  [SVGComponent.mk "knob_pan" "circle" (81 # 2) 30 0 0 6 "" "";
   SVGComponent.mk "knob_mix" "circle" (81 # 2) 30 0 0 6 "" "";
   SVGComponent.mk "knob_life" "circle" 100 120 0 0 6 "" "";
   SVGComponent.mk "status_display" "rect" 10 150 60 (25 # 2) 0 "" ""].

(** The document of the mapping file with the given entries. *)
Definition document_of (entries : list (string * json))
  : list (string * json) :=
  [("config", SVGToJUCEConverter.default_config);
   ("components", JObj entries)].

(** The mapper after [load] of the mapping file with the given entries. *)
Definition loaded_mapper (entries : list (string * json)) : ComponentMapper.t :=
  ComponentMapper.mk sample_mapping_path (JObj entries)
    SVGToJUCEConverter.default_config.

(** The converter [main] uses. *)
Definition default_converter : CoordinateConverter.t :=
  CoordinateConverter.mk 225 190 850 720
    (inject_Z 850 / 225) (inject_Z 720 / 190).

(** A knob in a group inside a group, and a button in the outer group. *)
Definition nested_groups : Element :=
  svg_root
    [element svg_g [("id", "controls"); (inkscape_label, "Controls")]
       [element svg_g [("id", "lfo"); (inkscape_label, "LFO")]
          [element svg_circle
             [("id", "knob_lfo_rate"); ("cx", "150"); ("cy", "60");
              ("r", "6")] []];
        element svg_rect
          [("id", "play_btn"); ("x", "20"); ("y", "10");
           ("width", "12"); ("height", "6")] []]].

(** Entries of which one is a text, not a dictionary. *)
Definition entries_with_text : list (string * json) :=
  [("knob_pan", knob_entry "panKnob" "PAN");
   ("knob_mix", JStr "OccultKnob")].

(** The first knob of [stacked_knobs], as parsed. *)
Definition knob_pan_comp : component :=
  SVGComponent.mk "knob_pan" "circle" (81 # 2) 30 0 0 6 "" "".

(** The knob of [nested_groups], as parsed. *)
Definition lfo_rate_comp : component :=
  SVGComponent.mk "knob_lfo_rate" "circle" 150 60 0 0 6 "" "LFO".

(** The button of [nested_groups], as parsed. *)
Definition play_btn_comp : component :=
  SVGComponent.mk "play_btn" "rect" 20 10 12 6 0 "" "Controls".

(** The world with [stacked_knobs] and the mapping file of its entries. *)
Definition mapped_world : World :=
  world_with stacked_knobs (Some (mapping_text stacked_knobs_entries)).

(** The world with [stacked_knobs] and a mapping file holding a text entry. *)
Definition world_with_text_entry : World :=
  world_with stacked_knobs (Some (mapping_text entries_with_text)).

(** The converter of [stacked_knobs] after the mapping file was loaded. *)
Definition loaded_converter : SVGToJUCEConverter.t :=
  SVGToJUCEConverter.set_mapper (converter_for stacked_knobs)
    (loaded_mapper stacked_knobs_entries).

(** The world after the snippets of [stacked_knobs] were written. *)
Definition generated_world : World :=
  snd (SVGToJUCEConverter.generate_code (rt := ref_runtime)
         (converter_for stacked_knobs) false mapped_world).

(** The generator [generate_code] makes for [stacked_knobs]. *)
Definition sample_generator : CodeGenerator.t :=
  CodeGenerator.mk stacked_knobs_comps (loaded_mapper stacked_knobs_entries)
    default_converter.

(** * Properties *)

(** ** Rounding *)

Lemma py_round_comp (a b : Q) : (a == b)%Q -> py_round a = py_round b.
Proof.
  intros H. unfold py_round.
  rewrite (Qfloor_comp a b H).
  assert (E : (a - inject_Z (Qfloor b) ?= 1 # 2)%Q
              = (b - inject_Z (Qfloor b) ?= 1 # 2)%Q).
  { apply Qcompare_comp; [rewrite H|]; reflexivity. }
  rewrite E. reflexivity.
Qed.

Lemma py_round_near (q : Q) : (Qabs (inject_Z (py_round q) - q) <= 1 # 2)%Q.
Proof.
  pose proof (Qfloor_le q) as Hlo.
  pose proof (Qlt_floor q) as Hhi.
  rewrite inject_Z_plus in Hhi. change (inject_Z 1) with 1%Q in Hhi.
  unfold py_round.
  destruct (Qcompare_spec (q - inject_Z (Qfloor q)) (1 # 2)) as [E|L|G].
  - destruct (Z.even (Qfloor q));
      [|rewrite inject_Z_plus; change (inject_Z 1) with 1%Q];
      apply Qabs_case; intros; lra.
  - apply Qabs_case; intros; lra.
  - rewrite inject_Z_plus. change (inject_Z 1) with 1%Q.
    apply Qabs_case; intros; lra.
Qed.

Lemma Qeq_bool_false (a b : Q) : ~ (a == b)%Q -> Qeq_bool a b = false.
Proof.
  intros H. destruct (Qeq_bool a b) eqn:E; [|reflexivity].
  apply Qeq_bool_iff in E. contradiction.
Qed.


(** ** The constructor of the coordinate converter *)

Lemma converter_init (svg_width_mm svg_height_mm : Q)
    (juce_width_px juce_height_px : Z) :
  ~ (svg_width_mm == 0)%Q -> ~ (svg_height_mm == 0)%Q ->
  CoordinateConverter.__init__ svg_width_mm svg_height_mm
    juce_width_px juce_height_px
  = Ret (CoordinateConverter.mk svg_width_mm svg_height_mm
           juce_width_px juce_height_px
           (inject_Z juce_width_px / svg_width_mm)
           (inject_Z juce_height_px / svg_height_mm)).
Proof.
  intros Hw Hh. unfold CoordinateConverter.__init__.
  rewrite (Qeq_bool_false _ _ Hw), (Qeq_bool_false _ _ Hh). reflexivity.
Qed.

(** C5. With the pixel size of the canvas equal to its physical size, the
    converter is built and [to_juce] returns each coordinate of a position
    rounded to the nearest integer, at most one half away from it. *)
Theorem to_juce_identity_scale (svg_width_mm svg_height_mm : Q)
    (juce_width_px juce_height_px : Z) (x y : Q) :
  (inject_Z juce_width_px == svg_width_mm)%Q ->
  (inject_Z juce_height_px == svg_height_mm)%Q ->
  ~ (svg_width_mm == 0)%Q -> ~ (svg_height_mm == 0)%Q ->
  exists c,
    CoordinateConverter.__init__ svg_width_mm svg_height_mm
      juce_width_px juce_height_px = Ret c
    /\ CoordinateConverter.to_juce c x y = (py_round x, py_round y)
    /\ (Qabs (inject_Z (fst (CoordinateConverter.to_juce c x y)) - x) <= 1 # 2)%Q
    /\ (Qabs (inject_Z (snd (CoordinateConverter.to_juce c x y)) - y) <= 1 # 2)%Q.
Proof.
  intros Ew Eh Hw Hh. eexists. split; [apply converter_init; assumption|].
  assert (E : CoordinateConverter.to_juce
                (CoordinateConverter.mk svg_width_mm svg_height_mm
                   juce_width_px juce_height_px
                   (inject_Z juce_width_px / svg_width_mm)
                   (inject_Z juce_height_px / svg_height_mm)) x y
              = (py_round x, py_round y)).
  { unfold CoordinateConverter.to_juce. cbn [CoordinateConverter.scale_x
      CoordinateConverter.scale_y]. f_equal; apply py_round_comp.
    - rewrite Ew. field. exact Hw.
    - rewrite Eh. field. exact Hh. }
  rewrite E. cbn [fst snd]. repeat split; apply py_round_near.
Qed.

(** ** Running computations *)

Lemma emit_nil (w : World) : emit [] w = w.
Proof. destruct w. unfold emit. cbn. rewrite app_nil_r. reflexivity. Qed.

Lemma emit_emit (a b : list string) (w : World) :
  emit b (emit a w) = emit (a ++ b) w.
Proof. unfold emit. cbn. rewrite app_assoc. reflexivity. Qed.

Lemma print_run (s : string) (w : World) : print s w = (Ret tt, emit [s] w).
Proof. reflexivity. Qed.

Lemma print_lines_run (ls : list string) (w : World) :
  print_lines ls w = (Ret tt, emit ls w).
Proof.
  revert w. induction ls as [|s ls IH]; intros w.
  - cbn. unfold ret. rewrite emit_nil. reflexivity.
  - cbn [print_lines]. unfold bind. rewrite print_run, IH, emit_emit.
    reflexivity.
Qed.

Lemma warn_run (title : string) (items : list string) (w : World) :
  warn title items w = (Ret tt, emit (warn_lines title items) w).
Proof.
  destruct items as [|i items].
  - cbn. unfold ret. rewrite emit_nil. reflexivity.
  - unfold warn, warn_lines, bind.
    rewrite print_run, print_lines_run, print_run, !emit_emit.
    reflexivity.
Qed.

Lemma set_mapper_same (self : SVGToJUCEConverter.t) :
  SVGToJUCEConverter.set_mapper self (SVGToJUCEConverter.mapper self) = self.
Proof. destruct self. reflexivity. Qed.

Lemma path_exists_false (p : string) (w : World) :
  files w !! p = None -> p ∉ dirs w -> path_exists p w = (Ret false, w).
Proof.
  intros Hf Hd. unfold path_exists. rewrite Hf.
  rewrite bool_decide_eq_false_2 by (intros [? ?]; discriminate).
  rewrite bool_decide_eq_false_2 by assumption. reflexivity.
Qed.

Lemma path_exists_file (p : string) (f : file) (w : World) :
  files w !! p = Some f -> path_exists p w = (Ret true, w).
Proof.
  intros Hf. unfold path_exists. rewrite Hf.
  rewrite bool_decide_eq_true_2 by eauto. reflexivity.
Qed.

(** The converter of every run: [CoordinateConverter()]. *)
Lemma with_defaults_run :
  CoordinateConverter.with_defaults
  = Ret (CoordinateConverter.mk 225 190 850 720
           (inject_Z 850 / 225) (inject_Z 720 / 190)).
Proof. reflexivity. Qed.

Section Runs.
Context {rt : PyRuntime}.

(** [load] on a mapper whose file is missing: nothing is read and the
    mapper is left as it is. *)
Lemma load_missing (m : ComponentMapper.t) (w : World) :
  files w !! ComponentMapper.mapping_file m = None ->
  ComponentMapper.mapping_file m ∉ dirs w ->
  ComponentMapper.load m w = (Ret m, w).
Proof.
  intros Hf Hd. unfold ComponentMapper.load, bind.
  rewrite (path_exists_false _ _ Hf Hd). reflexivity.
Qed.

(** C8. When the drawing [SR.svg] is missing, [main] prints the error and
    exits with code 1; no converter is built, no mode runs, and no file or
    directory is touched. *)
Theorem missing_drawing_exits (script_dir : string) (args : Args) (w : World) :
  files w !! pathlib_join script_dir "SR.svg" = None ->
  pathlib_join script_dir "SR.svg" ∉ dirs w ->
  main script_dir args w
  = (Exit 1,
     emit ["ERROR: SVG file not found: " +:+ pathlib_join script_dir "SR.svg"] w).
Proof.
  intros Hf Hd. unfold main, bind.
  rewrite (path_exists_false _ _ Hf Hd). reflexivity.
Qed.

(** C7. With the mapping file missing and no entry held by the mapper,
    [validate] and [generate_code] print the error and return; the files
    and directories are as before.  So does [main] in the validation, the
    preview and the generation mode. *)
Theorem missing_mapping_aborts :
  (forall (self : SVGToJUCEConverter.t) (dry_run : bool) (w : World),
     files w !! ComponentMapper.mapping_file (SVGToJUCEConverter.mapper self)
       = None ->
     ComponentMapper.mapping_file (SVGToJUCEConverter.mapper self) ∉ dirs w ->
     truthy (ComponentMapper.mapping (SVGToJUCEConverter.mapper self)) = false ->
     SVGToJUCEConverter.validate self w
       = (Ret self, emit [SVGToJUCEConverter.no_mapping_error] w)
     /\ SVGToJUCEConverter.generate_code self dry_run w
       = (Ret self, emit [SVGToJUCEConverter.no_mapping_error] w))
  /\ (forall (script_dir : string) (args : Args) (root : Element) (w : World),
        init args = false ->
        files w !! pathlib_join script_dir "SR.svg" = Some (XmlFile root) ->
        files w !! pathlib_join script_dir "component_mapping.json" = None ->
        pathlib_join script_dir "component_mapping.json" ∉ dirs w ->
        main script_dir args w
          = (Ret tt, emit [SVGToJUCEConverter.no_mapping_error] w)).
Proof.
  assert (Hm : forall (self : SVGToJUCEConverter.t) (dry_run : bool) (w : World),
     files w !! ComponentMapper.mapping_file (SVGToJUCEConverter.mapper self)
       = None ->
     ComponentMapper.mapping_file (SVGToJUCEConverter.mapper self) ∉ dirs w ->
     truthy (ComponentMapper.mapping (SVGToJUCEConverter.mapper self)) = false ->
     SVGToJUCEConverter.validate self w
       = (Ret self, emit [SVGToJUCEConverter.no_mapping_error] w)
     /\ SVGToJUCEConverter.generate_code self dry_run w
       = (Ret self, emit [SVGToJUCEConverter.no_mapping_error] w)).
  { intros self dry_run w Hf Hd Hempty.
    unfold SVGToJUCEConverter.validate, SVGToJUCEConverter.generate_code, bind.
    rewrite (load_missing _ _ Hf Hd), Hempty, set_mapper_same. cbn [negb].
    rewrite print_run. split; reflexivity. }
  split; [exact Hm|].
  intros script_dir args root w Hinit Hsvg Hf Hd.
  unfold main. unfold bind at 1.
  rewrite (path_exists_file _ _ _ Hsvg). cbn [negb].
  unfold bind at 1.
  unfold SVGToJUCEConverter.__init__, SVGToJUCEConverter.new_parser, bind, lift,
    read_file, ret.
  rewrite Hsvg, with_defaults_run.
  set (self := SVGToJUCEConverter.mk _ _ _ _ _ _).
  destruct (Hm self true w Hf Hd eq_refl) as [Hv Hg1].
  destruct (Hm self false w Hf Hd eq_refl) as [_ Hg2].
  rewrite Hinit.
  destruct (validate args); [|destruct (dry_run args)].
  - fold (bind (SVGToJUCEConverter.validate self) (fun _ => ret tt) w).
    unfold bind. rewrite Hv. reflexivity.
  - unfold bind. rewrite Hg1. reflexivity.
  - unfold bind. rewrite Hg2. reflexivity.
Qed.

End Runs.

(** ** What the methods of the converter return *)

Lemma bind_ret_inv {A B} (m : M A) (f : A -> M B) (w w' : World) (b : B) :
  bind m f w = (Ret b, w') ->
  exists a w1, m w = (Ret a, w1) /\ f a w1 = (Ret b, w').
Proof.
  unfold bind. destruct (m w) as [[a|e|c] w1]; intros H;
    [eauto | discriminate | discriminate].
Qed.

(** Takes a run [H : m w = (Ret r, w')] apart, bind by bind and branch by
    branch, down to the [ret] that ends it. *)
Ltac unbind H :=
  repeat first
    [ apply bind_ret_inv in H as (? & ? & _ & H); cbv zeta in H
    | match type of H with
      | (if ?b then _ else _) _ = _ => destruct b
      end ].

Section Frame.
Context {rt : PyRuntime}.

Lemma validate_keeps_converter (self self' : SVGToJUCEConverter.t) (w w' : World) :
  SVGToJUCEConverter.validate self w = (Ret self', w') ->
  SVGToJUCEConverter.converter self' = SVGToJUCEConverter.converter self.
Proof.
  unfold SVGToJUCEConverter.validate. intros H. unbind H;
    unfold ret in H; injection H as <- _; reflexivity.
Qed.

Lemma generate_code_keeps_converter (self self' : SVGToJUCEConverter.t)
    (dry_run : bool) (w w' : World) :
  SVGToJUCEConverter.generate_code self dry_run w = (Ret self', w') ->
  SVGToJUCEConverter.converter self' = SVGToJUCEConverter.converter self.
Proof.
  unfold SVGToJUCEConverter.generate_code. intros H. unbind H;
    unfold ret in H; injection H as <- _; reflexivity.
Qed.

Lemma init_mapping_keeps_converter (self self' : SVGToJUCEConverter.t)
    (w w' : World) :
  SVGToJUCEConverter.init_mapping self w = (Ret self', w') ->
  SVGToJUCEConverter.converter self' = SVGToJUCEConverter.converter self.
Proof.
  unfold SVGToJUCEConverter.init_mapping. intros H. unbind H;
    unfold ret in H; injection H as <- _; reflexivity.
Qed.

Lemma inject_Z_pos (z : Z) : (0 < z)%Z -> (0 < inject_Z z)%Q.
Proof. intros H. unfold Qlt. cbn. lia. Qed.

(** C9. For positive canvas sizes the constructor succeeds and stores the
    two scale factors, each the pixel size over the physical size and
    strictly positive.  The conversions read the stored factors, and no
    method of the orchestrator replaces the converter it was built with: the
    factors of a run are those computed at construction. *)
Theorem scale_factors_positive_and_fixed (svg_width_mm svg_height_mm : Q)
    (juce_width_px juce_height_px : Z) :
  (0 < svg_width_mm)%Q -> (0 < svg_height_mm)%Q ->
  (0 < juce_width_px)%Z -> (0 < juce_height_px)%Z ->
  exists c,
    CoordinateConverter.__init__ svg_width_mm svg_height_mm
      juce_width_px juce_height_px = Ret c
    /\ CoordinateConverter.scale_x c = (inject_Z juce_width_px / svg_width_mm)%Q
    /\ CoordinateConverter.scale_y c = (inject_Z juce_height_px / svg_height_mm)%Q
    /\ (0 < CoordinateConverter.scale_x c)%Q
    /\ (0 < CoordinateConverter.scale_y c)%Q
    /\ (forall x y : Q,
          CoordinateConverter.to_juce c x y
          = (py_round (x * (inject_Z juce_width_px / svg_width_mm)),
             py_round (y * (inject_Z juce_height_px / svg_height_mm)))
          /\ CoordinateConverter.size_to_juce c x y
             = (py_round (x * (inject_Z juce_width_px / svg_width_mm)),
                py_round (y * (inject_Z juce_height_px / svg_height_mm))))
    /\ (forall (self self' : SVGToJUCEConverter.t) (dry_run : bool)
               (w w' : World),
          SVGToJUCEConverter.converter self = c ->
          SVGToJUCEConverter.validate self w = (Ret self', w')
          \/ SVGToJUCEConverter.generate_code self dry_run w = (Ret self', w')
          \/ SVGToJUCEConverter.init_mapping self w = (Ret self', w') ->
          SVGToJUCEConverter.converter self' = c).
Proof.
  intros Hw Hh Hpw Hph. eexists.
  split; [apply converter_init; lra|].
  cbn [CoordinateConverter.scale_x CoordinateConverter.scale_y].
  split; [reflexivity|]. split; [reflexivity|].
  split.
  { apply Qlt_shift_div_l; [assumption|].
    rewrite Qmult_0_l. apply inject_Z_pos. assumption. }
  split.
  { apply Qlt_shift_div_l; [assumption|].
    rewrite Qmult_0_l. apply inject_Z_pos. assumption. }
  split; [intros x y; split; reflexivity|].
  intros self self' dry_run w w' Hc [H|[H|H]]; rewrite <- Hc.
  - eapply validate_keeps_converter; eassumption.
  - eapply generate_code_keeps_converter; eassumption.
  - eapply init_mapping_keeps_converter; eassumption.
Qed.


End Frame.

(** ** The parser *)

Section Parser.
Context {rt : PyRuntime}.

Lemma get_float_missing (e : Element) (k : string) :
  attrib e !! k = None -> SVGParser.get_float e k = Ret 0%Q.
Proof. intros H. unfold SVGParser.get_float. rewrite H. reflexivity. Qed.

Lemma parse_circle_inv (e : Element) (o : option component) :
  SVGParser._parse_circle e = Ret o ->
  (circle_skipped e = true /\ o = None)
  \/ (circle_skipped e = false
      /\ exists cx cy r,
           o = Some (SVGComponent.mk (get_str e "id") "circle" cx cy 0 0 r "" "")).
Proof.
  unfold SVGParser._parse_circle. fold (circle_skipped e).
  destruct (circle_skipped e).
  - intros [= <-]. left. split; reflexivity.
  - destruct (SVGParser.get_float e "cx") as [cx| |]; cbn; try discriminate.
    destruct (SVGParser.get_float e "cy") as [cy| |]; cbn; try discriminate.
    destruct (SVGParser.get_float e "r") as [r| |]; cbn; try discriminate.
    intros [= <-]. right. split; [reflexivity|]. eauto.
Qed.

Lemma parse_rect_inv (e : Element) (o : option component) :
  SVGParser._parse_rect e = Ret o ->
  (rect_skipped e = true /\ o = None)
  \/ (rect_skipped e = false
      /\ exists x y width height,
           o = Some (SVGComponent.mk (get_str e "id") "rect" x y width height 0
                       "" "")).
Proof.
  unfold SVGParser._parse_rect. fold (rect_skipped e).
  destruct (rect_skipped e).
  - intros [= <-]. left. split; reflexivity.
  - destruct (SVGParser.get_float e "x") as [x| |]; cbn; try discriminate.
    destruct (SVGParser.get_float e "y") as [y| |]; cbn; try discriminate.
    destruct (SVGParser.get_float e "width") as [wd| |]; cbn; try discriminate.
    destruct (SVGParser.get_float e "height") as [ht| |]; cbn; try discriminate.
    intros [= <-]. right. split; [reflexivity|]. eauto 6.
Qed.

(** A run of [collect] that returns has run [f] to its end on every
    element, and returns what [f] yielded, in order. *)
Lemma collect_inv (f : Element -> outcome (option component))
    (es : list Element) (cs : list component) :
  SVGParser.collect f es = Ret cs ->
  cs = yielded f es /\ Forall (fun e => exists o, f e = Ret o) es.
Proof.
  revert cs. induction es as [|e es IH]; intros cs; cbn.
  - intros [= <-]. split; [reflexivity|constructor].
  - destruct (f e) as [o| |] eqn:Ee; cbn; try discriminate.
    destruct (SVGParser.collect f es) as [rest| |]; cbn; try discriminate.
    destruct (IH rest eq_refl) as [-> Hall].
    intros [= <-]. split.
    + destruct o; reflexivity.
    + constructor; eauto.
Qed.

Lemma collect_total (f : Element -> outcome (option component))
    (es : list Element) :
  Forall (fun e => exists o, f e = Ret o) es ->
  SVGParser.collect f es = Ret (yielded f es).
Proof.
  induction 1 as [|e es [o Ho] _ IH]; cbn; [reflexivity|].
  rewrite Ho, IH. cbn. destruct o; reflexivity.
Qed.

Lemma erase_set_section (c : component) (s : string) :
  erase_section (SVGComponent.set_section c s) = erase_section c.
Proof. reflexivity. Qed.

Lemma assign_group_erase (cs : list component) (g : Element) :
  map erase_section (SVGParser.assign_group cs g) = map erase_section cs.
Proof.
  unfold SVGParser.assign_group.
  destruct (String.eqb _ _); [reflexivity|].
  rewrite map_map. apply map_ext. intros c.
  destruct (SVGParser.in_group g c); reflexivity.
Qed.

(** [_assign_sections] changes nothing but the sections. *)
Lemma assign_sections_erase (root : Element) (cs : list component) :
  map erase_section (SVGParser._assign_sections root cs) = map erase_section cs.
Proof.
  unfold SVGParser._assign_sections.
  generalize (iter svg_g root) as gs. intros gs. revert cs.
  induction gs as [|g gs IH]; intros cs; cbn; [reflexivity|].
  rewrite IH. apply assign_group_erase.
Qed.

Lemma parse_inv (root : Element) (comps : list component) :
  SVGParser.parse root = Ret comps ->
  exists circles rects,
    SVGParser.collect SVGParser._parse_circle (iter svg_circle root) = Ret circles
    /\ SVGParser.collect SVGParser._parse_rect (iter svg_rect root) = Ret rects
    /\ comps = SVGParser._assign_sections root (circles ++ rects).
Proof.
  unfold SVGParser.parse.
  destruct (SVGParser.collect SVGParser._parse_circle _) as [circles| |];
    cbn; try discriminate.
  destruct (SVGParser.collect SVGParser._parse_rect _) as [rects| |];
    cbn; try discriminate.
  intros [= <-]. eauto.
Qed.

(** Every component of the result is, but for its section, one of the
    components collected from the circles and the rectangles. *)
Lemma parse_in (root : Element) (comps : list component) (c : component) :
  SVGParser.parse root = Ret comps -> In c comps ->
  exists c0,
    erase_section c0 = erase_section c
    /\ (In c0 (yielded SVGParser._parse_circle (iter svg_circle root))
        \/ In c0 (yielded SVGParser._parse_rect (iter svg_rect root))).
Proof.
  intros Hp Hin. destruct (parse_inv _ _ Hp) as (circles & rects & Hc & Hr & ->).
  apply collect_inv in Hc as [-> _]. apply collect_inv in Hr as [-> _].
  apply (in_map erase_section) in Hin. rewrite assign_sections_erase in Hin.
  apply in_map_iff in Hin as (c0 & E & Hin0).
  exists c0. split; [exact E|]. apply in_app_or. exact Hin0.
Qed.

(** Conversely each collected component is in the result, with some
    section. *)
Lemma in_parse (root : Element) (comps : list component) (c0 : component) :
  SVGParser.parse root = Ret comps ->
  In c0 (yielded SVGParser._parse_circle (iter svg_circle root))
  \/ In c0 (yielded SVGParser._parse_rect (iter svg_rect root)) ->
  exists c, In c comps /\ erase_section c = erase_section c0.
Proof.
  intros Hp Hin. destruct (parse_inv _ _ Hp) as (circles & rects & Hc & Hr & ->).
  apply collect_inv in Hc as [-> _]. apply collect_inv in Hr as [-> _].
  apply in_or_app in Hin. apply (in_map erase_section) in Hin.
  rewrite <- (assign_sections_erase root) in Hin.
  apply in_map_iff in Hin as (c & E & Hc). eauto.
Qed.

Lemma erase_section_inv (c : component) (i t : string) (x y wd ht r : Q)
    (l s : string) :
  erase_section c = erase_section (SVGComponent.mk i t x y wd ht r l s) ->
  c = SVGComponent.mk i t x y wd ht r l (SVGComponent.section c).
Proof. destruct c. cbv. intros [= -> -> -> -> -> -> -> ->]. reflexivity. Qed.

Lemma yielded_cons (f : Element -> outcome (option component)) (e : Element)
    (es : list Element) :
  yielded f (e :: es)
  = match f e with Ret (Some c) => [c] | _ => [] end ++ yielded f es.
Proof. reflexivity. Qed.

Lemma yielded_circle_ids (es : list Element) :
  Forall (fun e => exists o, SVGParser._parse_circle e = Ret o) es ->
  map SVGComponent.id (yielded SVGParser._parse_circle es)
  = map (fun e => get_str e "id")
      (List.filter (fun e => negb (circle_skipped e)) es).
Proof.
  induction 1 as [|e es [o Ho] _ IH]; [reflexivity|].
  rewrite yielded_cons, map_app, IH, Ho. cbn [List.filter].
  destruct (parse_circle_inv _ _ Ho) as [[Hk ->]|[Hk (cx & cy & r & ->)]];
    rewrite Hk; reflexivity.
Qed.

Lemma yielded_rect_ids (es : list Element) :
  Forall (fun e => exists o, SVGParser._parse_rect e = Ret o) es ->
  map SVGComponent.id (yielded SVGParser._parse_rect es)
  = map (fun e => get_str e "id")
      (List.filter (fun e => negb (rect_skipped e)) es).
Proof.
  induction 1 as [|e es [o Ho] _ IH]; [reflexivity|].
  rewrite yielded_cons, map_app, IH, Ho. cbn [List.filter].
  destruct (parse_rect_inv _ _ Ho) as [[Hk ->]|[Hk (x & y & wd & ht & ->)]];
    rewrite Hk; reflexivity.
Qed.

Lemma erase_section_id (l : list component) :
  map SVGComponent.id (map erase_section l) = map SVGComponent.id l.
Proof. rewrite map_map. reflexivity. Qed.

(** C2 (amended). The parser removes no duplicate: the identifiers of the
    result are those of the kept circles followed by those of the kept
    rectangles, one record per element.  They are pairwise distinct exactly
    when the kept elements of the drawing have pairwise distinct
    identifiers. *)
Theorem parsed_ids_are_kept_ids (root : Element) (comps : list component) :
  SVGParser.parse root = Ret comps ->
  map SVGComponent.id comps = kept_ids root
  /\ (NoDup (map SVGComponent.id comps) <-> NoDup (kept_ids root)).
Proof.
  intros Hp.
  assert (E : map SVGComponent.id comps = kept_ids root).
  { destruct (parse_inv _ _ Hp) as (circles & rects & Hc & Hr & ->).
    apply collect_inv in Hc as [-> Hc]. apply collect_inv in Hr as [-> Hr].
    rewrite <- erase_section_id, assign_sections_erase, erase_section_id.
    rewrite map_app, (yielded_circle_ids _ Hc), (yielded_rect_ids _ Hr).
    reflexivity. }
  split; [exact E|]. rewrite E. reflexivity.
Qed.

(** C6 (amended). A record of the parsed list is a circle whose identifier
    is not empty and starts with none of the decorative prefixes, or a
    rectangle whose identifier is not empty, does not end in [_border] and
    is none of [panel_background], [header_bg], [waveform_path].  The
    decorative prefixes are tested on circles only, whatever the position:
    every rectangle that its own rule does not skip has its record in the
    list, whatever its identifier starts with. *)
Theorem decorative_circles_never_parsed (root : Element)
    (comps : list component) :
  SVGParser.parse root = Ret comps ->
  (forall c : component,
     In c comps ->
     (SVGComponent.type c = "circle"
      /\ SVGComponent.id c <> ""
      /\ existsb (Str.startswith (SVGComponent.id c))
           SVGParser.decorative_prefixes = false)
     \/ (SVGComponent.type c = "rect"
         /\ SVGComponent.id c <> ""
         /\ Str.endswith (SVGComponent.id c) "_border" = false
         /\ Str.mem (SVGComponent.id c) SVGParser.skip_ids = false))
  /\ (forall e : Element,
        In e (iter svg_rect root) -> rect_skipped e = false ->
        exists c,
          In c comps
          /\ SVGComponent.id c = get_str e "id"
          /\ SVGComponent.type c = "rect").
Proof.
  intros Hp. split.
  - intros c Hin.
    destruct (parse_in _ _ _ Hp Hin) as (c0 & E & [H0|H0]);
      apply in_flat_map in H0 as (e & _ & He).
    + left. destruct (SVGParser._parse_circle e) as [[c1|]| |] eqn:Hc;
        try contradiction.
      destruct He as [->|[]].
      destruct (parse_circle_inv _ _ Hc)
        as [[_ [=]]|[Hk (cx & cy & r & [= ->])]].
      symmetry in E. apply erase_section_inv in E. rewrite E. cbn.
      unfold circle_skipped in Hk. apply orb_false_elim in Hk as [Hid Hpre].
      split; [reflexivity|]. split; [|exact Hpre].
      intros Hempty. rewrite Hempty in Hid. discriminate.
    + right. destruct (SVGParser._parse_rect e) as [[c1|]| |] eqn:Hc;
        try contradiction.
      destruct He as [->|[]].
      destruct (parse_rect_inv _ _ Hc)
        as [[_ [=]]|[Hk (x & y & wd & ht & [= ->])]].
      symmetry in E. apply erase_section_inv in E. rewrite E. cbn.
      unfold rect_skipped in Hk. apply orb_false_elim in Hk as [Hk Hskip].
      apply orb_false_elim in Hk as [Hid Hborder].
      split; [reflexivity|]. split; [|split; assumption].
      intros Hempty. rewrite Hempty in Hid. discriminate.
  - intros e He Hk.
    destruct (parse_inv _ _ Hp) as (circles & rects & _ & Hr & _).
    apply collect_inv in Hr as [_ Hall].
    destruct (proj1 (List.Forall_forall _ _) Hall e He) as [o Ho].
    destruct (parse_rect_inv _ _ Ho)
      as [[Hs _]|[_ (x & y & wd & ht & ->)]]; [congruence|].
    destruct (in_parse root comps
                (SVGComponent.mk (get_str e "id") "rect" x y wd ht 0 "" "") Hp)
      as (c & Hc & E).
    { right. apply in_flat_map. exists e. split; [exact He|].
      rewrite Ho. left. reflexivity. }
    apply erase_section_inv in E. exists c. split; [exact Hc|].
    rewrite E. split; reflexivity.
Qed.

End Parser.

Section Defaults.
Context {rt : PyRuntime}.

Lemma get_float_total (e : Element) (k : string) :
  (forall s, attrib e !! k = Some s -> is_Some (py_float s)) ->
  exists q, SVGParser.get_float e k = Ret q.
Proof.
  intros H. unfold SVGParser.get_float.
  destruct (attrib e !! k) as [s|]; [|eauto].
  destruct (H s eq_refl) as [q ->]. eauto.
Qed.

Lemma parse_total (root : Element) :
  numbers_readable root -> exists comps, SVGParser.parse root = Ret comps.
Proof.
  intros [Hcircles Hrects]. unfold SVGParser.parse.
  rewrite (collect_total SVGParser._parse_circle).
  2:{ apply List.Forall_forall. intros e He.
      unfold SVGParser._parse_circle. fold (circle_skipped e).
      destruct (circle_skipped e) eqn:Hk; [eauto|].
      destruct (get_float_total e "cx") as [? ->];
        [intros s; apply Hcircles; [assumption..|cbn; tauto]|].
      destruct (get_float_total e "cy") as [? ->];
        [intros s; apply Hcircles; [assumption..|cbn; tauto]|].
      destruct (get_float_total e "r") as [? ->];
        [intros s; apply Hcircles; [assumption..|cbn; tauto]|].
      cbn. eauto. }
  rewrite (collect_total SVGParser._parse_rect).
  2:{ apply List.Forall_forall. intros e He.
      unfold SVGParser._parse_rect. fold (rect_skipped e).
      destruct (rect_skipped e) eqn:Hk; [eauto|].
      destruct (get_float_total e "x") as [? ->];
        [intros s; apply Hrects; [assumption..|cbn; tauto]|].
      destruct (get_float_total e "y") as [? ->];
        [intros s; apply Hrects; [assumption..|cbn; tauto]|].
      destruct (get_float_total e "width") as [? ->];
        [intros s; apply Hrects; [assumption..|cbn; tauto]|].
      destruct (get_float_total e "height") as [? ->];
        [intros s; apply Hrects; [assumption..|cbn; tauto]|].
      cbn. eauto. }
  cbn. eauto.
Qed.

Lemma parse_circle_defaults (e : Element) :
  circle_skipped e = false ->
  attrib e !! "cx" = None -> attrib e !! "cy" = None -> attrib e !! "r" = None ->
  SVGParser._parse_circle e
  = Ret (Some (SVGComponent.mk (get_str e "id") "circle" 0 0 0 0 0 "" "")).
Proof.
  intros Hk Hx Hy Hr. unfold SVGParser._parse_circle. fold (circle_skipped e).
  rewrite Hk, !get_float_missing by assumption. reflexivity.
Qed.

Lemma parse_rect_defaults (e : Element) :
  rect_skipped e = false ->
  attrib e !! "x" = None -> attrib e !! "y" = None ->
  attrib e !! "width" = None -> attrib e !! "height" = None ->
  SVGParser._parse_rect e
  = Ret (Some (SVGComponent.mk (get_str e "id") "rect" 0 0 0 0 0 "" "")).
Proof.
  intros Hk Hx Hy Hw Hh. unfold SVGParser._parse_rect. fold (rect_skipped e).
  rewrite Hk, !get_float_missing by assumption. reflexivity.
Qed.

(** C10. A missing numeric attribute reads as 0 and raises nothing.  A kept
    circle without [cx], [cy] and [r], and a kept rectangle without [x],
    [y], [width] and [height], give the record at (0, 0) with zero size;
    the list [parse] returns holds that record (with the section of its
    group, if any); and [parse] does return when the numeric attributes that
    the kept circles and rectangles do carry are readable. *)
Theorem missing_attributes_default_to_zero :
  (forall (e : Element) (k : string),
     attrib e !! k = None -> SVGParser.get_float e k = Ret 0%Q)
  /\ (forall e : Element,
        circle_skipped e = false ->
        attrib e !! "cx" = None -> attrib e !! "cy" = None ->
        attrib e !! "r" = None ->
        SVGParser._parse_circle e
        = Ret (Some (SVGComponent.mk (get_str e "id") "circle" 0 0 0 0 0 "" "")))
  /\ (forall e : Element,
        rect_skipped e = false ->
        attrib e !! "x" = None -> attrib e !! "y" = None ->
        attrib e !! "width" = None -> attrib e !! "height" = None ->
        SVGParser._parse_rect e
        = Ret (Some (SVGComponent.mk (get_str e "id") "rect" 0 0 0 0 0 "" "")))
  /\ (forall (root e : Element) (comps : list component),
        SVGParser.parse root = Ret comps ->
        (In e (iter svg_circle root) ->
         circle_skipped e = false ->
         attrib e !! "cx" = None -> attrib e !! "cy" = None ->
         attrib e !! "r" = None ->
         exists section,
           In (SVGComponent.mk (get_str e "id") "circle" 0 0 0 0 0 "" section)
              comps)
        /\ (In e (iter svg_rect root) ->
            rect_skipped e = false ->
            attrib e !! "x" = None -> attrib e !! "y" = None ->
            attrib e !! "width" = None -> attrib e !! "height" = None ->
            exists section,
              In (SVGComponent.mk (get_str e "id") "rect" 0 0 0 0 0 "" section)
                 comps))
  /\ (forall root : Element,
        numbers_readable root -> exists comps, SVGParser.parse root = Ret comps).
Proof.
  split; [exact get_float_missing|].
  split; [exact parse_circle_defaults|].
  split; [exact parse_rect_defaults|].
  split; [|exact parse_total].
  intros root e comps Hp. split.
  - intros He Hk Hx Hy Hr.
    destruct (in_parse root comps
                (SVGComponent.mk (get_str e "id") "circle" 0 0 0 0 0 "" "") Hp)
      as (c & Hc & E).
    { left. apply in_flat_map. exists e. split; [exact He|].
      rewrite parse_circle_defaults by assumption. left. reflexivity. }
    apply erase_section_inv in E. rewrite E in Hc. eauto.
  - intros He Hk Hx Hy Hw Hh.
    destruct (in_parse root comps
                (SVGComponent.mk (get_str e "id") "rect" 0 0 0 0 0 "" "") Hp)
      as (c & Hc & E).
    { right. apply in_flat_map. exists e. split; [exact He|].
      rewrite parse_rect_defaults by assumption. left. reflexivity. }
    apply erase_section_inv in E. rewrite E in Hc. eauto.
Qed.

End Defaults.

(** ** Validation *)

Lemma grows_ret {A} (a : A) : grows (ret a).
Proof. intros w. exists []. cbn. rewrite app_nil_r. reflexivity. Qed.

Lemma grows_lift {A} (o : outcome A) : grows (lift o).
Proof. intros w. exists []. cbn. rewrite app_nil_r. reflexivity. Qed.

Lemma grows_print (s : string) : grows (print s).
Proof. intros w. exists [s]. reflexivity. Qed.

Lemma grows_warn (title : string) (items : list string) :
  grows (warn title items).
Proof. intros w. rewrite warn_run. eexists. reflexivity. Qed.

Lemma grows_bind {A B} (m : M A) (f : A -> M B) :
  grows m -> (forall a, grows (f a)) -> grows (bind m f).
Proof.
  intros Hm Hf w. unfold bind. destruct (Hm w) as [r1 H1].
  destruct (m w) as [[a|e|c] w1]; cbn in H1 |- *; [|eauto..].
  destruct (Hf a w1) as [r2 H2]. exists (r1 ++ r2).
  rewrite H2, H1, app_assoc. reflexivity.
Qed.

Ltac solve_grows :=
  repeat first
    [ apply grows_ret | apply grows_lift | apply grows_print | apply grows_warn
    | apply grows_bind; [|intros]
    | match goal with
      | |- grows (if ?b then _ else _) => destruct b
      end ].

Lemma bind_run {A B} (m : M A) (f : A -> M B) (w w1 : World) (a : A) :
  m w = (Ret a, w1) -> bind m f w = f a w1.
Proof. intros H. unfold bind. rewrite H. reflexivity. Qed.

Lemma lift_run {A} (a : A) (w : World) : lift (Ret a) w = (Ret a, w).
Proof. reflexivity. Qed.

Lemma assoc_in {A} (kvs : list (string * A)) (k : string) (v : A) :
  assoc kvs k = Some v -> In (k, v) kvs.
Proof.
  induction kvs as [|[k' v'] kvs IH]; cbn; [discriminate|].
  destruct (String.eqb_spec k' k) as [->|_].
  - intros [= ->]. left. reflexivity.
  - intros H. right. apply IH. exact H.
Qed.

Section Validation.
Context {rt : PyRuntime}.

(** [load] on a mapping file that holds a dictionary. *)
Lemma load_present (m : ComponentMapper.t) (w : World) (text : string)
    (d : list (string * json)) :
  files w !! ComponentMapper.mapping_file m = Some (TextFile text) ->
  json_loads text = Some (JObj d) ->
  ComponentMapper.load m w
  = (Ret (ComponentMapper.mk (ComponentMapper.mapping_file m)
            (default (JObj []) (assoc d "components"))
            (default (JObj []) (assoc d "config"))), w).
Proof.
  intros Hf Hd. unfold ComponentMapper.load.
  rewrite (bind_run _ _ _ _ _ (path_exists_file _ _ _ Hf)).
  unfold bind, read_file. rewrite Hf, Hd. reflexivity.
Qed.

Lemma find_unmapped_dict (kvs : list (string * json)) (comps : list component) :
  SVGToJUCEConverter.find_unmapped (JObj kvs) comps
  = Ret (List.filter (fun i => bool_decide (assoc kvs i = None))
           (map SVGComponent.id comps)).
Proof.
  induction comps as [|c comps IH]; [reflexivity|].
  cbn [SVGToJUCEConverter.find_unmapped py_contains obind map List.filter].
  rewrite IH. destruct (assoc kvs (SVGComponent.id c)) as [v|].
  - rewrite bool_decide_eq_true_2 by eauto.
    rewrite bool_decide_eq_false_2 by discriminate. reflexivity.
  - rewrite bool_decide_eq_false_2 by (intros [? ?]; discriminate).
    rewrite bool_decide_eq_true_2 by reflexivity. reflexivity.
Qed.

(** C3 (amended). When the mapping file holds at least one entry,
    [validate] prints, right after the two lines on parsing, the warning
    that lists as unmapped the identifiers of the parsed components that
    are no key of the mapping, each once per component and in their order,
    and no other identifier: a key of the mapping that no component bears
    is not listed.  (With no entry in the mapping, [validate] prints the
    error of C7 instead and lists nothing.) *)
Theorem unmapped_reported (self : SVGToJUCEConverter.t) (w : World)
    (text : string) (d kvs : list (string * json)) (comps : list component) :
  files w !! ComponentMapper.mapping_file (SVGToJUCEConverter.mapper self)
    = Some (TextFile text) ->
  json_loads text = Some (JObj d) ->
  assoc d "components" = Some (JObj kvs) ->
  kvs <> [] ->
  SVGParser.parse (SVGToJUCEConverter.root (SVGToJUCEConverter.parser self))
    = Ret comps ->
  let unmapped :=
    List.filter (fun i => bool_decide (assoc kvs i = None))
      (map SVGComponent.id comps) in
  (exists rest,
     stdout (snd (SVGToJUCEConverter.validate self w))
     = stdout w
       ++ ["Parsing " +:+ SVGToJUCEConverter.svg_path self +:+ "...";
           "Found " +:+ pretty (length comps) +:+ " components" +:+ newline]
       ++ warn_lines " unmapped SVG components:" unmapped
       ++ rest)
  /\ (forall i, In i unmapped <-> In i (map SVGComponent.id comps)
                                  /\ assoc kvs i = None)
  /\ (forall i, is_Some (assoc kvs i) -> ~ In i unmapped).
Proof.
  intros Hf Hd Hc Hne Hp unmapped.
  assert (Hin : forall i, In i unmapped <-> In i (map SVGComponent.id comps)
                                            /\ assoc kvs i = None).
  { intros i. unfold unmapped. rewrite filter_In, bool_decide_eq_true.
    reflexivity. }
  split; [|split; [exact Hin|]].
  2:{ intros i [v Hv] Hi. apply Hin in Hi as [_ Hi]. congruence. }
  unfold SVGToJUCEConverter.validate.
  rewrite (bind_run _ _ _ _ _ (load_present _ _ _ _ Hf Hd)). cbv zeta.
  rewrite Hc. change (default (JObj []) (Some (JObj kvs))) with (JObj kvs).
  cbn [ComponentMapper.mapping].
  replace (truthy (JObj kvs)) with true by (destruct kvs; [contradiction|reflexivity]).
  cbn [negb SVGToJUCEConverter.svg_path SVGToJUCEConverter.set_mapper
       SVGToJUCEConverter.parser].
  rewrite (bind_run _ _ _ _ _ (print_run _ _)).
  rewrite Hp, (bind_run _ _ _ _ _ (lift_run _ _)).
  rewrite (bind_run _ _ _ _ _ (print_run _ _)).
  rewrite find_unmapped_dict, (bind_run _ _ _ _ _ (lift_run _ _)).
  fold unmapped.
  rewrite (bind_run _ _ _ _ _ (warn_run _ _ _)).
  rewrite !emit_emit.
  match goal with
  | |- context [snd (?k ?w2)] =>
      assert (Hk : grows k) by solve_grows;
      destruct (Hk w2) as [rest Hrest]; exists rest; rewrite Hrest
  end.
  cbn [emit stdout]. rewrite <- !app_assoc. reflexivity.
Qed.

End Validation.

(** ** The overlap check *)



Section OverlapCheck.
Context {rt : PyRuntime}.










End OverlapCheck.

(** ** The reference runtime *)



(** ** The theorems on sample inputs

    Each theorem above that has hypotheses is applied here to a sample
    drawing, mapping file and world, under the reference runtime. *)

(** The sample converter is the one [main] builds in the sample world. *)
Lemma converter_for_built (drawing : Element) (mapping : option string) :
  SVGToJUCEConverter.__init__ sample_svg_path sample_mapping_path
    sample_output_dir (world_with drawing mapping)
  = (Ret (converter_for drawing), world_with drawing mapping).
Proof. destruct mapping; reflexivity. Qed.

Lemma to_juce_identity_scale_witness :
  exists c,
    CoordinateConverter.__init__ 850 720 850 720 = Ret c
    /\ CoordinateConverter.to_juce c (21 # 2) (7 # 3)
       = (py_round (21 # 2), py_round (7 # 3))
    /\ (Qabs (inject_Z (fst (CoordinateConverter.to_juce c (21 # 2) (7 # 3)))
              - (21 # 2)) <= 1 # 2)%Q
    /\ (Qabs (inject_Z (snd (CoordinateConverter.to_juce c (21 # 2) (7 # 3)))
              - (7 # 3)) <= 1 # 2)%Q.
Proof.
  apply (to_juce_identity_scale 850 720 850 720 (21 # 2) (7 # 3));
    [reflexivity | reflexivity | discriminate | discriminate].
Defined.

Lemma scale_factors_positive_and_fixed_witness :
  exists c,
    CoordinateConverter.with_defaults = Ret c
    /\ CoordinateConverter.scale_x c = (inject_Z 850 / 225)%Q
    /\ CoordinateConverter.scale_y c = (inject_Z 720 / 190)%Q
    /\ (0 < CoordinateConverter.scale_x c)%Q
    /\ (0 < CoordinateConverter.scale_y c)%Q.
Proof.
  destruct (scale_factors_positive_and_fixed (rt := ref_runtime)
              225 190 850 720 eq_refl eq_refl eq_refl eq_refl)
    as (c & Hc & Hx & Hy & Hpx & Hpy & _).
  exists c. auto.
Defined.


Lemma missing_mapping_aborts_witness :
  SVGToJUCEConverter.validate (rt := ref_runtime) (converter_for stacked_knobs)
    (world_with stacked_knobs None)
  = (Ret (converter_for stacked_knobs),
     emit [SVGToJUCEConverter.no_mapping_error] (world_with stacked_knobs None))
  /\ SVGToJUCEConverter.generate_code (rt := ref_runtime)
       (converter_for stacked_knobs) false (world_with stacked_knobs None)
     = (Ret (converter_for stacked_knobs),
        emit [SVGToJUCEConverter.no_mapping_error]
          (world_with stacked_knobs None))
  /\ main (rt := ref_runtime) sample_dir (mkArgs false false false)
       (world_with stacked_knobs None)
     = (Ret tt,
        emit [SVGToJUCEConverter.no_mapping_error]
          (world_with stacked_knobs None)).
Proof.
  destruct (missing_mapping_aborts (rt := ref_runtime)) as [Hmethods Hmain].
  split; [|split].
  - apply (Hmethods (converter_for stacked_knobs) false);
      [reflexivity | apply not_elem_of_empty | reflexivity].
  - apply (Hmethods (converter_for stacked_knobs) false);
      [reflexivity | apply not_elem_of_empty | reflexivity].
  - apply (Hmain sample_dir (mkArgs false false false) stacked_knobs);
      [reflexivity | reflexivity | reflexivity | apply not_elem_of_empty].
Defined.

Lemma missing_drawing_exits_witness :
  main (rt := ref_runtime) sample_dir (mkArgs false false true)
    (mkWorld {[sample_mapping_path := TextFile (mapping_text [])]} ∅ [])
  = (Exit 1,
     emit ["ERROR: SVG file not found: " +:+ pathlib_join sample_dir "SR.svg"]
       (mkWorld {[sample_mapping_path := TextFile (mapping_text [])]} ∅ [])).
Proof.
  apply (missing_drawing_exits (rt := ref_runtime));
    [reflexivity | apply not_elem_of_empty].
Defined.

Lemma missing_attributes_default_to_zero_witness :
  SVGParser.parse (rt := ref_runtime) bare_shapes
  = Ret [SVGComponent.mk "knob_mix" "circle" 0 0 0 0 0 "" "";
         SVGComponent.mk "status_display" "rect" 0 0 0 0 0 "" ""]
  /\ exists section,
       In (SVGComponent.mk "knob_mix" "circle" 0 0 0 0 0 "" section)
          [SVGComponent.mk "knob_mix" "circle" 0 0 0 0 0 "" "";
           SVGComponent.mk "status_display" "rect" 0 0 0 0 0 "" ""].
Proof.
  destruct (missing_attributes_default_to_zero (rt := ref_runtime))
    as (_ & _ & _ & Hin & _).
  split; [vm_compute; reflexivity|].
  apply (proj1 (Hin bare_shapes (element svg_circle [("id", "knob_mix")] [])
                  _ eq_refl));
    [left; reflexivity | reflexivity..].
Defined.

Lemma parsed_ids_are_kept_ids_witness :
  map SVGComponent.id
    [SVGComponent.mk "knob_pan" "circle" (81 # 2) 30 0 0 6 "" "";
     SVGComponent.mk "knob_mix" "circle" (81 # 2) 30 0 0 6 "" "";
     SVGComponent.mk "knob_life" "circle" 100 120 0 0 6 "" "";
     SVGComponent.mk "status_display" "rect" 10 150 60 (25 # 2) 0 "" ""]
  = kept_ids stacked_knobs
  /\ (NoDup (map SVGComponent.id
               [SVGComponent.mk "knob_pan" "circle" (81 # 2) 30 0 0 6 "" "";
                SVGComponent.mk "knob_mix" "circle" (81 # 2) 30 0 0 6 "" "";
                SVGComponent.mk "knob_life" "circle" 100 120 0 0 6 "" "";
                SVGComponent.mk "status_display" "rect" 10 150 60 (25 # 2) 0
                  "" ""])
      <-> NoDup (kept_ids stacked_knobs)).
Proof.
  apply (parsed_ids_are_kept_ids (rt := ref_runtime) stacked_knobs).
  vm_compute. reflexivity.
Defined.

Lemma decorative_circles_never_parsed_witness :
  (forall c : component,
     In c [SVGComponent.mk "kbd_key_c4" "rect" 5 170 4 12 0 "" "Decorations"] ->
     (SVGComponent.type c = "circle"
      /\ SVGComponent.id c <> ""
      /\ existsb (Str.startswith (SVGComponent.id c))
           SVGParser.decorative_prefixes = false)
     \/ (SVGComponent.type c = "rect"
         /\ SVGComponent.id c <> ""
         /\ Str.endswith (SVGComponent.id c) "_border" = false
         /\ Str.mem (SVGComponent.id c) SVGParser.skip_ids = false))
  /\ (forall e : Element,
        In e (iter svg_rect keyboard) -> rect_skipped e = false ->
        exists c,
          In c [SVGComponent.mk "kbd_key_c4" "rect" 5 170 4 12 0 ""
                  "Decorations"]
          /\ SVGComponent.id c = get_str e "id"
          /\ SVGComponent.type c = "rect").
Proof.
  apply (decorative_circles_never_parsed (rt := ref_runtime) keyboard).
  vm_compute. reflexivity.
Defined.

Lemma unmapped_reported_witness :
  exists rest,
    stdout (snd (SVGToJUCEConverter.validate (rt := ref_runtime)
                   (converter_for stacked_knobs)
                   (world_with stacked_knobs
                      (Some (mapping_text stacked_knobs_entries)))))
    = ["Parsing /plugin/Source/Parser/SR.svg...";
       "Found 4 components" +:+ newline;
       "WARNING: 1 unmapped SVG components:";
       "  - status_display";
       ""] ++ rest.
Proof.
  exact (proj1 (unmapped_reported (rt := ref_runtime)
                  (converter_for stacked_knobs)
                  (world_with stacked_knobs
                     (Some (mapping_text stacked_knobs_entries)))
                  (mapping_text stacked_knobs_entries)
                  [("config", SVGToJUCEConverter.default_config);
                   ("components", JObj stacked_knobs_entries)]
                  stacked_knobs_entries
                  [SVGComponent.mk "knob_pan" "circle" (81 # 2) 30 0 0 6 "" "";
                   SVGComponent.mk "knob_mix" "circle" (81 # 2) 30 0 0 6 "" "";
                   SVGComponent.mk "knob_life" "circle" 100 120 0 0 6 "" "";
                   SVGComponent.mk "status_display" "rect" 10 150 60 (25 # 2) 0
                     "" ""]
                  eq_refl eq_refl eq_refl ltac:(discriminate) eq_refl)).
Defined.


(** ** Where the claims fail *)


(** C2, as stated, fails: two circles of a drawing bear the identifier
    [knob_pan], and the parsed list holds two records with it. *)
Lemma duplicate_ids_are_kept :
  SVGParser.parse (rt := ref_runtime) twin_circles
  = Ret [SVGComponent.mk "knob_pan" "circle" (81 # 2) 30 0 0 0 "" "";
         SVGComponent.mk "knob_pan" "circle" 80 30 0 0 0 "" ""]
  /\ ~ NoDup (map SVGComponent.id
                [SVGComponent.mk "knob_pan" "circle" (81 # 2) 30 0 0 0 "" "";
                 SVGComponent.mk "knob_pan" "circle" 80 30 0 0 0 "" ""]).
Proof.
  split; [vm_compute; reflexivity|].
  cbn. intros H. apply NoDup_cons_1_1 in H. apply H. left.
Qed.

(** C3, as stated, fails: with a mapping file that holds no entry, the
    four parsed components have no entry in the mapping, and [validate]
    lists none of them: it prints the error and stops. *)
Lemma empty_mapping_lists_no_unmapped :
  json_loads (PyRuntime := ref_runtime) (mapping_text [])
  = Some (JObj [("config", SVGToJUCEConverter.default_config);
                ("components", JObj [])])
  /\ (exists comps,
        SVGParser.parse (rt := ref_runtime) stacked_knobs = Ret comps
        /\ map SVGComponent.id comps
           = ["knob_pan"; "knob_mix"; "knob_life"; "status_display"])
  /\ stdout (snd (SVGToJUCEConverter.validate (rt := ref_runtime)
                    (converter_for stacked_knobs)
                    (world_with stacked_knobs (Some (mapping_text [])))))
     = [SVGToJUCEConverter.no_mapping_error].
Proof.
  split; [vm_compute; reflexivity|]. split; [|vm_compute; reflexivity].
  eexists. split; vm_compute; reflexivity.
Qed.

(** C6, as stated, fails: the rectangle [kbd_key_c4] bears a decorative
    prefix and is in the parsed list; the circle [kbd_key_dot] is not. *)
Lemma decorative_rect_is_parsed :
  SVGParser.parse (rt := ref_runtime) keyboard
  = Ret [SVGComponent.mk "kbd_key_c4" "rect" 5 170 4 12 0 "" "Decorations"]
  /\ Str.startswith "kbd_key_c4" "kbd_key" = true.
Proof. split; vm_compute; reflexivity. Qed.

(** * Further properties of the script *)

(** ** The coordinate converter *)

Lemma py_round_floor (q : Q) :
  (Qfloor q <= py_round q <= Qfloor q + 1)%Z.
Proof.
  unfold py_round.
  destruct (q - inject_Z (Qfloor q) ?= 1 # 2)%Q; [|lia..].
  destruct (Z.even (Qfloor q)); lia.
Qed.

(** [round] is monotone. *)
Lemma py_round_le (a b : Q) : (a <= b)%Q -> (py_round a <= py_round b)%Z.
Proof.
  intros Hab.
  pose proof (Qfloor_resp_le a b Hab) as Hf.
  destruct (Z.eq_dec (Qfloor a) (Qfloor b)) as [E|N].
  - unfold py_round. rewrite E.
    destruct (Qcompare_spec (a - inject_Z (Qfloor b)) (1 # 2)) as [Ea|La|Ga];
      destruct (Qcompare_spec (b - inject_Z (Qfloor b)) (1 # 2)) as [Eb|Lb|Gb];
      try destruct (Z.even (Qfloor b)); try lia; lra.
  - pose proof (py_round_floor a). pose proof (py_round_floor b). lia.
Qed.

(** [round] of a whole number is the number. *)
Lemma py_round_inject_Z (z : Z) : py_round (inject_Z z) = z.
Proof.
  unfold py_round. rewrite Qfloor_Z.
  destruct (Qcompare_spec (inject_Z z - inject_Z z) (1 # 2)) as [E|L|G];
    [lra | reflexivity | lra].
Qed.

(** X1. A converter built for positive sizes keeps the order of the
    coordinates on both axes: a position further right or further down in
    the drawing is not further left or further up in pixels.  The same holds
    for sizes. *)
Theorem to_juce_monotone (svg_width_mm svg_height_mm : Q)
    (juce_width_px juce_height_px : Z) (c : CoordinateConverter.t)
    (x x' y y' : Q) :
  (0 < svg_width_mm)%Q -> (0 < svg_height_mm)%Q ->
  (0 < juce_width_px)%Z -> (0 < juce_height_px)%Z ->
  CoordinateConverter.__init__ svg_width_mm svg_height_mm
    juce_width_px juce_height_px = Ret c ->
  (x <= x')%Q -> (y <= y')%Q ->
  (fst (CoordinateConverter.to_juce c x y)
   <= fst (CoordinateConverter.to_juce c x' y'))%Z
  /\ (snd (CoordinateConverter.to_juce c x y)
      <= snd (CoordinateConverter.to_juce c x' y'))%Z
  /\ (fst (CoordinateConverter.size_to_juce c x y)
      <= fst (CoordinateConverter.size_to_juce c x' y'))%Z
  /\ (snd (CoordinateConverter.size_to_juce c x y)
      <= snd (CoordinateConverter.size_to_juce c x' y'))%Z.
Proof.
  intros Hw Hh Hpw Hph Hc Hx Hy.
  rewrite converter_init in Hc by lra. injection Hc as <-.
  assert (Hsx : (0 < inject_Z juce_width_px / svg_width_mm)%Q).
  { apply Qlt_shift_div_l; [assumption|].
    rewrite Qmult_0_l. apply inject_Z_pos. assumption. }
  assert (Hsy : (0 < inject_Z juce_height_px / svg_height_mm)%Q).
  { apply Qlt_shift_div_l; [assumption|].
    rewrite Qmult_0_l. apply inject_Z_pos. assumption. }
  unfold CoordinateConverter.to_juce, CoordinateConverter.size_to_juce.
  cbn [fst snd CoordinateConverter.scale_x CoordinateConverter.scale_y].
  repeat split; apply py_round_le; nra.
Qed.

(** X2. A converter built for positive sizes maps the origin of the
    drawing to the pixel origin and the far corner of the drawing to the far
    corner of the pixel canvas, exactly; every position inside the drawing
    lands inside the pixel canvas. *)
Theorem to_juce_in_canvas (svg_width_mm svg_height_mm : Q)
    (juce_width_px juce_height_px : Z) (c : CoordinateConverter.t) :
  (0 < svg_width_mm)%Q -> (0 < svg_height_mm)%Q ->
  (0 < juce_width_px)%Z -> (0 < juce_height_px)%Z ->
  CoordinateConverter.__init__ svg_width_mm svg_height_mm
    juce_width_px juce_height_px = Ret c ->
  CoordinateConverter.to_juce c 0 0 = (0, 0)%Z
  /\ CoordinateConverter.to_juce c svg_width_mm svg_height_mm
     = (juce_width_px, juce_height_px)
  /\ (forall x y : Q,
        (0 <= x <= svg_width_mm)%Q -> (0 <= y <= svg_height_mm)%Q ->
        (0 <= fst (CoordinateConverter.to_juce c x y) <= juce_width_px)%Z
        /\ (0 <= snd (CoordinateConverter.to_juce c x y) <= juce_height_px)%Z).
Proof.
  intros Hw Hh Hpw Hph Hc.
  rewrite converter_init in Hc by lra. injection Hc as <-.
  assert (Hsx : (0 < inject_Z juce_width_px / svg_width_mm)%Q).
  { apply Qlt_shift_div_l; [assumption|].
    rewrite Qmult_0_l. apply inject_Z_pos. assumption. }
  assert (Hsy : (0 < inject_Z juce_height_px / svg_height_mm)%Q).
  { apply Qlt_shift_div_l; [assumption|].
    rewrite Qmult_0_l. apply inject_Z_pos. assumption. }
  assert (Ex : (svg_width_mm * (inject_Z juce_width_px / svg_width_mm)
                == inject_Z juce_width_px)%Q) by (field; lra).
  assert (Ey : (svg_height_mm * (inject_Z juce_height_px / svg_height_mm)
                == inject_Z juce_height_px)%Q) by (field; lra).
  assert (E0 : forall s : Q, py_round (0 * s) = 0%Z).
  { intros s. rewrite (py_round_comp (0 * s) (inject_Z 0)) by (cbn; ring).
    apply py_round_inject_Z. }
  unfold CoordinateConverter.to_juce.
  cbn [fst snd CoordinateConverter.scale_x CoordinateConverter.scale_y].
  split; [rewrite !E0; reflexivity|].
  split.
  { rewrite (py_round_comp _ _ Ex), (py_round_comp _ _ Ey),
      !py_round_inject_Z. reflexivity. }
  intros x y [Hx0 Hx1] [Hy0 Hy1].
  set (sx := (inject_Z juce_width_px / svg_width_mm)%Q) in *.
  set (sy := (inject_Z juce_height_px / svg_height_mm)%Q) in *.
  assert (Hx_lo : (py_round (0 * sx) <= py_round (x * sx))%Z)
    by (apply py_round_le; nra).
  assert (Hx_hi : (py_round (x * sx) <= py_round (svg_width_mm * sx))%Z)
    by (apply py_round_le; nra).
  assert (Hy_lo : (py_round (0 * sy) <= py_round (y * sy))%Z)
    by (apply py_round_le; nra).
  assert (Hy_hi : (py_round (y * sy) <= py_round (svg_height_mm * sy))%Z)
    by (apply py_round_le; nra).
  rewrite E0 in Hx_lo, Hy_lo.
  rewrite (py_round_comp _ _ Ex), py_round_inject_Z in Hx_hi.
  rewrite (py_round_comp _ _ Ey), py_round_inject_Z in Hy_hi.
  lia.
Qed.

(** ** The parser, further *)

Section ParserMore.
Context {rt : PyRuntime}.

Lemma value_or_ValueError_bind {A B} (m : outcome A) (f : A -> outcome B) :
  value_or_ValueError m -> (forall a, value_or_ValueError (f a)) ->
  value_or_ValueError (obind m f).
Proof. destruct m; cbn; auto. Qed.

Lemma get_float_outcome (e : Element) (k : string) :
  value_or_ValueError (SVGParser.get_float e k).
Proof.
  unfold SVGParser.get_float.
  destruct (attrib e !! k) as [s|]; [|exact I].
  destruct (py_float s); [exact I|reflexivity].
Qed.

Lemma parse_circle_outcome (e : Element) :
  value_or_ValueError (SVGParser._parse_circle e).
Proof.
  unfold SVGParser._parse_circle. destruct (_ || _); [exact I|].
  repeat (apply value_or_ValueError_bind; [apply get_float_outcome|intros ?]).
  exact I.
Qed.

Lemma parse_rect_outcome (e : Element) :
  value_or_ValueError (SVGParser._parse_rect e).
Proof.
  unfold SVGParser._parse_rect. destruct (_ || _); [exact I|].
  repeat (apply value_or_ValueError_bind; [apply get_float_outcome|intros ?]).
  exact I.
Qed.

Lemma collect_outcome (f : Element -> outcome (option component))
    (es : list Element) :
  (forall e, value_or_ValueError (f e)) ->
  value_or_ValueError (SVGParser.collect f es).
Proof.
  intros Hf. induction es as [|e es IH]; [exact I|].
  cbn [SVGParser.collect].
  apply value_or_ValueError_bind; [apply Hf|intros o].
  apply value_or_ValueError_bind; [exact IH|intros rest]. exact I.
Qed.

Lemma parse_outcome (root : Element) :
  value_or_ValueError (SVGParser.parse root).
Proof.
  unfold SVGParser.parse.
  apply value_or_ValueError_bind;
    [apply collect_outcome, parse_circle_outcome|intros circles].
  apply value_or_ValueError_bind;
    [apply collect_outcome, parse_rect_outcome|intros rects]. exact I.
Qed.

Lemma get_float_read (e : Element) (k s : string) (q : Q) :
  SVGParser.get_float e k = Ret q -> attrib e !! k = Some s ->
  py_float s = Some q.
Proof.
  unfold SVGParser.get_float. intros H Hs. rewrite Hs in H.
  destruct (py_float s); [congruence|discriminate].
Qed.

(** What a circle that is kept yields: the record of its converted
    attributes. *)
Lemma parse_circle_kept (e : Element) (o : option component) :
  SVGParser._parse_circle e = Ret o -> circle_skipped e = false ->
  exists cx cy r,
    SVGParser.get_float e "cx" = Ret cx
    /\ SVGParser.get_float e "cy" = Ret cy
    /\ SVGParser.get_float e "r" = Ret r
    /\ o = Some (SVGComponent.mk (get_str e "id") "circle" cx cy 0 0 r "" "").
Proof.
  unfold SVGParser._parse_circle. fold (circle_skipped e). intros H Hk.
  rewrite Hk in H.
  destruct (SVGParser.get_float e "cx") as [cx| |]; cbn in H; try discriminate.
  destruct (SVGParser.get_float e "cy") as [cy| |]; cbn in H; try discriminate.
  destruct (SVGParser.get_float e "r") as [r| |]; cbn in H; try discriminate.
  injection H as <-. eauto 8.
Qed.

Lemma parse_rect_kept (e : Element) (o : option component) :
  SVGParser._parse_rect e = Ret o -> rect_skipped e = false ->
  exists x y width height,
    SVGParser.get_float e "x" = Ret x
    /\ SVGParser.get_float e "y" = Ret y
    /\ SVGParser.get_float e "width" = Ret width
    /\ SVGParser.get_float e "height" = Ret height
    /\ o = Some (SVGComponent.mk (get_str e "id") "rect" x y width height 0
                   "" "").
Proof.
  unfold SVGParser._parse_rect. fold (rect_skipped e). intros H Hk.
  rewrite Hk in H.
  destruct (SVGParser.get_float e "x") as [x| |]; cbn in H; try discriminate.
  destruct (SVGParser.get_float e "y") as [y| |]; cbn in H; try discriminate.
  destruct (SVGParser.get_float e "width") as [wd| |]; cbn in H;
    try discriminate.
  destruct (SVGParser.get_float e "height") as [ht| |]; cbn in H;
    try discriminate.
  injection H as <-. eauto 10.
Qed.

Lemma parse_readable (root : Element) (comps : list component) :
  SVGParser.parse root = Ret comps -> numbers_readable root.
Proof.
  intros Hp. destruct (parse_inv _ _ Hp) as (circles & rects & Hc & Hr & _).
  apply collect_inv in Hc as [_ Hc]. apply collect_inv in Hr as [_ Hr].
  split; intros e k s He Hk Hin Hs.
  - destruct (proj1 (List.Forall_forall _ _) Hc e He) as [o Ho].
    destruct (parse_circle_kept _ _ Ho Hk) as (cx & cy & r & Hx & Hy & Hrr & _).
    cbn in Hin. destruct Hin as [<-|[<-|[<-|[]]]];
      [rewrite (get_float_read _ _ _ _ Hx Hs)
      |rewrite (get_float_read _ _ _ _ Hy Hs)
      |rewrite (get_float_read _ _ _ _ Hrr Hs)]; eauto.
  - destruct (proj1 (List.Forall_forall _ _) Hr e He) as [o Ho].
    destruct (parse_rect_kept _ _ Ho Hk)
      as (x & y & wd & ht & Hx & Hy & Hw & Hh & _).
    cbn in Hin. destruct Hin as [<-|[<-|[<-|[<-|[]]]]];
      [rewrite (get_float_read _ _ _ _ Hx Hs)
      |rewrite (get_float_read _ _ _ _ Hy Hs)
      |rewrite (get_float_read _ _ _ _ Hw Hs)
      |rewrite (get_float_read _ _ _ _ Hh Hs)]; eauto.
Qed.

(** X3. [parse] returns exactly when [float] accepts every numeric
    attribute that a kept circle or rectangle carries; otherwise it raises
    [ValueError] and nothing else.  The attributes of the elements that are
    skipped are never converted. *)
Theorem parse_returns_iff_readable (root : Element) :
  (numbers_readable root <-> exists comps, SVGParser.parse root = Ret comps)
  /\ (~ numbers_readable root -> SVGParser.parse root = Raise ValueError).
Proof.
  split.
  - split; [apply parse_total|]. intros [comps Hp].
    eapply parse_readable; eassumption.
  - intros Hn. pose proof (parse_outcome root) as Ho.
    destruct (SVGParser.parse root) as [comps|e|c] eqn:Hp.
    + exfalso. apply Hn. eapply parse_readable; eassumption.
    + cbn in Ho. congruence.
    + destruct Ho.
Qed.

(** X4. Every record of the parsed list carries the converted attributes
    of one kept element of the drawing: a circle record has the identifier,
    centre and radius of a kept circle and no width or height; a rectangle
    record has the identifier, corner, width and height of a kept rectangle
    and no radius.  The label of a record is empty. *)
Theorem parsed_records_are_read_from_elements (root : Element)
    (comps : list component) (c : component) :
  SVGParser.parse root = Ret comps -> In c comps ->
  (exists e,
     In e (iter svg_circle root) /\ circle_skipped e = false
     /\ SVGComponent.type c = "circle"
     /\ SVGComponent.id c = get_str e "id"
     /\ SVGParser.get_float e "cx" = Ret (SVGComponent.x c)
     /\ SVGParser.get_float e "cy" = Ret (SVGComponent.y c)
     /\ SVGParser.get_float e "r" = Ret (SVGComponent.radius c)
     /\ SVGComponent.width c = 0%Q /\ SVGComponent.height c = 0%Q
     /\ SVGComponent.label c = "")
  \/ (exists e,
        In e (iter svg_rect root) /\ rect_skipped e = false
        /\ SVGComponent.type c = "rect"
        /\ SVGComponent.id c = get_str e "id"
        /\ SVGParser.get_float e "x" = Ret (SVGComponent.x c)
        /\ SVGParser.get_float e "y" = Ret (SVGComponent.y c)
        /\ SVGParser.get_float e "width" = Ret (SVGComponent.width c)
        /\ SVGParser.get_float e "height" = Ret (SVGComponent.height c)
        /\ SVGComponent.radius c = 0%Q
        /\ SVGComponent.label c = "").
Proof.
  intros Hp Hin.
  destruct (parse_in _ _ _ Hp Hin) as (c0 & E & [H0|H0]);
    apply in_flat_map in H0 as (e & He & Hy).
  - left. exists e.
    destruct (SVGParser._parse_circle e) as [[c1|]| |] eqn:Hc;
      try contradiction.
    destruct Hy as [->|[]].
    destruct (parse_circle_inv _ _ Hc) as [[_ [=]]|[Hk _]].
    destruct (parse_circle_kept _ _ Hc Hk)
      as (cx & cy & r & Hx & Hyy & Hr & [= ->]).
    symmetry in E. apply erase_section_inv in E. rewrite E. cbn.
    repeat split; assumption.
  - right. exists e.
    destruct (SVGParser._parse_rect e) as [[c1|]| |] eqn:Hc;
      try contradiction.
    destruct Hy as [->|[]].
    destruct (parse_rect_inv _ _ Hc) as [[_ [=]]|[Hk _]].
    destruct (parse_rect_kept _ _ Hc Hk)
      as (x & y & wd & ht & Hx & Hyy & Hw & Hh & [= ->]).
    symmetry in E. apply erase_section_inv in E. rewrite E. cbn.
    repeat split; assumption.
Qed.

End ParserMore.

(** ** The sections *)

Lemma last_cons {A} (a d : A) (l : list A) :
  List.last (a :: l) d = List.last l a.
Proof.
  revert a d. induction l as [|b l IH]; intros a d; [reflexivity|].
  change (List.last (a :: b :: l) d) with (List.last (b :: l) d).
  rewrite (IH b d), (IH b a). reflexivity.
Qed.

Lemma assign_group_map (cs : list component) (g : Element) :
  SVGParser.assign_group cs g = map (fun c => assign_step c g) cs.
Proof.
  unfold SVGParser.assign_group, assign_step.
  destruct (String.eqb _ _); [|reflexivity].
  rewrite map_id. reflexivity.
Qed.

Lemma assign_groups_map (gs : list Element) (cs : list component) :
  fold_left SVGParser.assign_group gs cs
  = map (fun c => fold_left assign_step gs c) cs.
Proof.
  revert cs. induction gs as [|g gs IH]; intros cs; cbn [fold_left].
  - rewrite map_id. reflexivity.
  - rewrite IH, assign_group_map, map_map. reflexivity.
Qed.

Lemma assign_steps_section (gs : list Element) (c : component) :
  SVGComponent.id (fold_left assign_step gs c) = SVGComponent.id c
  /\ SVGComponent.section (fold_left assign_step gs c)
     = List.last
         (map (fun g => get_str g inkscape_label)
            (List.filter
               (fun g =>
                  negb (String.eqb (get_str g inkscape_label) "")
                  && existsb
                       (fun elem =>
                          bool_decide (attrib elem !! "id"
                                       = Some (SVGComponent.id c)))
                       (iter_all g))
               gs))
         (SVGComponent.section c).
Proof.
  revert c. induction gs as [|g gs IH]; intros c; [split; reflexivity|].
  cbn [fold_left List.filter].
  destruct (IH (assign_step c g)) as [Hid Hsec]. rewrite Hid, Hsec.
  unfold assign_step, SVGParser.in_group.
  destruct (String.eqb (get_str g inkscape_label) ""); cbn [negb andb];
    [split; reflexivity|].
  destruct (existsb _ (iter_all g)); cbn [map SVGComponent.id
    SVGComponent.set_section SVGComponent.section];
    [|split; reflexivity].
  rewrite last_cons. split; reflexivity.
Qed.

Section Sections.
Context {rt : PyRuntime}.

Lemma yielded_circle_section (es : list Element) (c : component) :
  In c (yielded SVGParser._parse_circle es) -> SVGComponent.section c = "".
Proof.
  intros H. apply in_flat_map in H as (e & _ & He).
  destruct (SVGParser._parse_circle e) as [[c1|]| |] eqn:Hc; try contradiction.
  destruct He as [->|[]].
  destruct (parse_circle_inv _ _ Hc) as [[_ [=]]|[_ (cx & cy & r & [= ->])]].
  reflexivity.
Qed.

Lemma yielded_rect_section (es : list Element) (c : component) :
  In c (yielded SVGParser._parse_rect es) -> SVGComponent.section c = "".
Proof.
  intros H. apply in_flat_map in H as (e & _ & He).
  destruct (SVGParser._parse_rect e) as [[c1|]| |] eqn:Hc; try contradiction.
  destruct He as [->|[]].
  destruct (parse_rect_inv _ _ Hc)
    as [[_ [=]]|[_ (x & y & wd & ht & [= ->])]].
  reflexivity.
Qed.

(** X5. The section of a parsed record is the label of the last labelled
    group, in document order, that holds an element with the record's
    identifier, and is empty when there is no such group. *)
Theorem section_is_last_labelled_group (root : Element)
    (comps : list component) (c : component) :
  SVGParser.parse root = Ret comps -> In c comps ->
  SVGComponent.section c
  = List.last (labels_around root (SVGComponent.id c)) "".
Proof.
  intros Hp Hin.
  destruct (parse_inv _ _ Hp) as (circles & rects & Hc & Hr & ->).
  apply collect_inv in Hc as [-> _]. apply collect_inv in Hr as [-> _].
  unfold SVGParser._assign_sections in Hin. rewrite assign_groups_map in Hin.
  apply in_map_iff in Hin as (c0 & <- & Hin0).
  destruct (assign_steps_section (iter svg_g root) c0) as [Hid Hsec].
  rewrite Hsec, Hid. unfold labels_around. f_equal.
  apply in_app_or in Hin0 as [H0|H0];
    [eapply yielded_circle_section|eapply yielded_rect_section]; eassumption.
Qed.

End Sections.

(** ** What is written, and when *)

Lemma keeps_files_ret {A} (a : A) : keeps_files (ret a).
Proof. intros w. split; reflexivity. Qed.

Lemma keeps_files_lift {A} (o : outcome A) : keeps_files (lift o).
Proof. intros w. split; reflexivity. Qed.

Lemma keeps_files_print (s : string) : keeps_files (print s).
Proof. intros w. split; reflexivity. Qed.

Lemma keeps_files_warn (title : string) (items : list string) :
  keeps_files (warn title items).
Proof. intros w. rewrite warn_run. split; reflexivity. Qed.

Lemma keeps_files_path_exists (p : string) : keeps_files (path_exists p).
Proof. intros w. split; reflexivity. Qed.

Lemma keeps_files_read_file (p : string) : keeps_files (read_file p).
Proof. intros w. unfold read_file. destruct (files w !! p); split; reflexivity. Qed.

Lemma keeps_files_bind {A B} (m : M A) (f : A -> M B) :
  keeps_files m -> (forall a, keeps_files (f a)) -> keeps_files (bind m f).
Proof.
  intros Hm Hf w. unfold bind. destruct (Hm w) as [H1 H2].
  destruct (m w) as [[a|e|c] w1]; cbn in H1, H2 |- *; [|auto..].
  destruct (Hf a w1) as [H3 H4]. split; congruence.
Qed.

Ltac solve_keeps_files :=
  repeat
    (cbv beta iota zeta;
     lazymatch goal with
     | |- keeps_files (ret _) => apply keeps_files_ret
     | |- keeps_files (lift _) => apply keeps_files_lift
     | |- keeps_files (print _) => apply keeps_files_print
     | |- keeps_files (warn _ _) => apply keeps_files_warn
     | |- keeps_files (path_exists _) => apply keeps_files_path_exists
     | |- keeps_files (read_file _) => apply keeps_files_read_file
     | |- keeps_files (bind _ _) => apply keeps_files_bind; [|intros]
     | |- keeps_files (match ?x with _ => _ end) => destruct x
     end).













Section Writes.
Context {rt : PyRuntime}.

Lemma keeps_files_load (m : ComponentMapper.t) :
  keeps_files (ComponentMapper.load m).
Proof. unfold ComponentMapper.load. solve_keeps_files. Qed.

(** X6. [validate] and the preview ([generate_code] with [dry_run]) write
    nothing: whatever the drawing and the mapping hold, and whether the run
    returns or raises, the files and the directories are afterwards as they
    were before. *)
Theorem validate_and_preview_write_nothing (self : SVGToJUCEConverter.t)
    (w : World) :
  (files (snd (SVGToJUCEConverter.validate self w)) = files w
   /\ dirs (snd (SVGToJUCEConverter.validate self w)) = dirs w)
  /\ (files (snd (SVGToJUCEConverter.generate_code self true w)) = files w
      /\ dirs (snd (SVGToJUCEConverter.generate_code self true w)) = dirs w).
Proof.
  split.
  - assert (H : keeps_files (SVGToJUCEConverter.validate self)).
    { unfold SVGToJUCEConverter.validate.
      apply keeps_files_bind; [apply keeps_files_load|intros m].
      solve_keeps_files. }
    apply H.
  - assert (H : keeps_files (SVGToJUCEConverter.generate_code self true)).
    { unfold SVGToJUCEConverter.generate_code.
      apply keeps_files_bind; [apply keeps_files_load|intros m].
      solve_keeps_files. }
    apply H.
Qed.

End Writes.




Section Generation.
Context {rt : PyRuntime}.


End Generation.

Section GenerationSuccess.
Context {rt : PyRuntime}.

(** X8. When [generate_code] returns with a mapping that holds entries, the
    drawing was parsed, the three snippets were rendered from the parsed
    components and the loaded mapping, and the world afterwards is the world
    before with the output directory made and exactly the three snippet
    files written with the rendered texts. *)
Theorem generation_writes_three_files (self self' : SVGToJUCEConverter.t)
    (w w' : World) :
  SVGToJUCEConverter.generate_code self false w = (Ret self', w') ->
  truthy (ComponentMapper.mapping (SVGToJUCEConverter.mapper self')) = true ->
  exists comps header constructor resized,
    SVGParser.parse (SVGToJUCEConverter.root (SVGToJUCEConverter.parser self))
      = Ret comps
    /\ CodeGenerator.generate_header_snippet
         (CodeGenerator.mk comps (SVGToJUCEConverter.mapper self')
            (SVGToJUCEConverter.converter self)) = Ret header
    /\ CodeGenerator.generate_constructor_snippet
         (CodeGenerator.mk comps (SVGToJUCEConverter.mapper self')
            (SVGToJUCEConverter.converter self)) = Ret constructor
    /\ CodeGenerator.generate_resized_snippet
         (CodeGenerator.mk comps (SVGToJUCEConverter.mapper self')
            (SVGToJUCEConverter.converter self)) = Ret resized
    /\ files w'
       = <[os_path_join (SVGToJUCEConverter.output_dir self)
             "resized_snippet.cpp" := TextFile resized]>
           (<[os_path_join (SVGToJUCEConverter.output_dir self)
                "constructor_snippet.cpp" := TextFile constructor]>
              (<[os_path_join (SVGToJUCEConverter.output_dir self)
                   "header_snippet.hpp" := TextFile header]> (files w)))
    /\ dirs w' = {[SVGToJUCEConverter.output_dir self]} ∪ dirs w.
Proof.
  intros H Htruthy. unfold SVGToJUCEConverter.generate_code in H.
  apply bind_ret_inv in H as (m & w1 & Hl & H). cbv zeta in H.
  pose proof (keeps_files_load (SVGToJUCEConverter.mapper self) w) as [Hf Hd].
  rewrite Hl in Hf, Hd. cbn [snd] in Hf, Hd.
  destruct (truthy (ComponentMapper.mapping m)) eqn:Ht; cbn [negb] in H.
  2:{ rewrite (bind_run _ _ _ _ _ (print_run _ _)) in H. unfold ret in H.
      injection H as <- _. cbn in Htruthy. congruence. }
  rewrite (bind_run _ _ _ _ _ (print_run _ _)) in H.
  destruct (SVGParser.parse _) as [comps| |] eqn:Hp;
    [|unfold bind, lift in H; discriminate..].
  rewrite (bind_run _ _ _ _ _ (lift_run _ _)) in H.
  rewrite (bind_run _ _ _ _ _ (print_run _ _)) in H.
  rewrite (bind_run _ _ _ _ _ (print_run _ _)) in H.
  cbn [SVGToJUCEConverter.converter SVGToJUCEConverter.set_mapper] in H.
  destruct (CodeGenerator.generate_header_snippet _) as [header| |] eqn:Hh;
    [|unfold bind, lift in H; discriminate..].
  rewrite (bind_run _ _ _ _ _ (lift_run _ _)) in H.
  destruct (CodeGenerator.generate_constructor_snippet _)
    as [constructor| |] eqn:Hc;
    [|unfold bind, lift in H; discriminate..].
  rewrite (bind_run _ _ _ _ _ (lift_run _ _)) in H.
  destruct (CodeGenerator.generate_resized_snippet _) as [resized| |] eqn:Hr;
    [|unfold bind, lift in H; discriminate..].
  rewrite (bind_run _ _ _ _ _ (lift_run _ _)) in H.
  cbv iota in H.
  unfold bind, makedirs, write_text, print, ret in H. cbn in H.
  injection H as <- <-.
  cbn [SVGToJUCEConverter.mapper SVGToJUCEConverter.set_mapper files dirs].
  exists comps, header, constructor, resized.
  rewrite Hf, Hd. repeat split; assumption.
Qed.

End GenerationSuccess.

(** ** Validation, further *)

Lemma unknown_entries_dicts_eq (kvs : list (string * json)) :
  all_dicts kvs ->
  SVGToJUCEConverter.unknown_entries kvs = Ret (unknown_keys kvs).
Proof.
  induction 1 as [|[k v] kvs [e He] _ IH]; [reflexivity|].
  cbn in He. subst v.
  cbn [SVGToJUCEConverter.unknown_entries py_get_default obind].
  rewrite IH. unfold unknown_keys. cbn [List.filter snd entry_type obind].
  destruct (is_str (default JNull (assoc e "type")) "Unknown"); reflexivity.
Qed.

(** An entry that is no dictionary stops the check of the types. *)
Lemma unknown_entries_non_dict (kvs : list (string * json)) :
  Exists (fun kv => forall e, snd kv <> JObj e) kvs ->
  SVGToJUCEConverter.unknown_entries kvs = Raise AttributeError.
Proof.
  induction 1 as [[k v] kvs Hv|[k v] kvs _ IH];
    cbn [SVGToJUCEConverter.unknown_entries].
  - cbn in Hv. destruct v; try reflexivity. exfalso. eapply Hv. reflexivity.
  - rewrite IH. destruct v; reflexivity.
Qed.

Section ValidationMore.
Context {rt : PyRuntime}.



End ValidationMore.

(** ** The mapping made by [--init] *)

Lemma assoc_assoc_set {A} (kvs : list (string * A)) (k k' : string) (v : A) :
  assoc (assoc_set kvs k v) k'
  = if String.eqb k k' then Some v else assoc kvs k'.
Proof.
  induction kvs as [|[k0 v0] kvs IH]; cbn.
  - reflexivity.
  - destruct (String.eqb_spec k0 k) as [->|Hk]; cbn.
    + destruct (String.eqb_spec k k'); reflexivity.
    + destruct (String.eqb_spec k0 k') as [->|Hk'].
      * destruct (String.eqb_spec k k'); [congruence|reflexivity].
      * exact IH.
Qed.

Lemma assoc_set_keys {A} (kvs : list (string * A)) (k : string) (v : A) :
  map fst (assoc_set kvs k v)
  = if bool_decide (is_Some (assoc kvs k)) then map fst kvs
    else map fst kvs ++ [k].
Proof.
  induction kvs as [|[k0 v0] kvs IH]; cbn.
  - reflexivity.
  - destruct (String.eqb_spec k0 k) as [->|Hk]; cbn.
    + first [reflexivity | rewrite bool_decide_eq_true_2 by eauto; reflexivity].
    + rewrite IH. destruct (bool_decide (is_Some (assoc kvs k))); reflexivity.
Qed.

Lemma assoc_none_keys {A} (kvs : list (string * A)) (k : string) :
  assoc kvs k = None <-> ~ In k (map fst kvs).
Proof.
  induction kvs as [|[k0 v0] kvs IH]; cbn.
  - tauto.
  - destruct (String.eqb_spec k0 k) as [->|Hk].
    + split; [discriminate|]. intros H. exfalso. apply H. left. reflexivity.
    + rewrite IH. tauto.
Qed.

(** The suggested entry is made from the identifier alone. *)
Lemma suggest_entry_id (c c' : component) :
  SVGComponent.id c = SVGComponent.id c' ->
  SVGToJUCEConverter.suggest_entry c = SVGToJUCEConverter.suggest_entry c'.
Proof.
  intros H. unfold SVGToJUCEConverter.suggest_entry,
    ComponentMapper.detect_component_type.
  rewrite H. reflexivity.
Qed.


Lemma suggested_fold_keeps (comps : list component)
    (acc : list (string * json)) (c : component) :
  assoc acc (SVGComponent.id c) = Some (SVGToJUCEConverter.suggest_entry c) ->
  assoc (fold_left
           (fun m c =>
              assoc_set m (SVGComponent.id c)
                (SVGToJUCEConverter.suggest_entry c))
           comps acc) (SVGComponent.id c)
  = Some (SVGToJUCEConverter.suggest_entry c).
Proof.
  revert acc. induction comps as [|c0 comps IH]; intros acc H; [exact H|].
  cbn [fold_left]. apply IH. rewrite assoc_assoc_set.
  destruct (String.eqb_spec (SVGComponent.id c0) (SVGComponent.id c)) as [E|_];
    [|exact H].
  rewrite (suggest_entry_id _ _ E). reflexivity.
Qed.

Lemma suggested_fold_in (comps : list component)
    (acc : list (string * json)) (c : component) :
  In c comps ->
  assoc (fold_left
           (fun m c =>
              assoc_set m (SVGComponent.id c)
                (SVGToJUCEConverter.suggest_entry c))
           comps acc) (SVGComponent.id c)
  = Some (SVGToJUCEConverter.suggest_entry c).
Proof.
  revert acc. induction comps as [|c0 comps IH]; intros acc Hin;
    [destruct Hin | destruct Hin as [->|Hin]].
  - cbn [fold_left]. apply suggested_fold_keeps.
    rewrite assoc_assoc_set, String.eqb_refl. reflexivity.
  - cbn [fold_left]. apply IH. exact Hin.
Qed.

Lemma suggested_fold_keys (comps : list component)
    (acc : list (string * json)) (k : string) :
  In k (map fst (fold_left
                   (fun m c =>
                      assoc_set m (SVGComponent.id c)
                        (SVGToJUCEConverter.suggest_entry c))
                   comps acc))
  <-> In k (map fst acc) \/ In k (map SVGComponent.id comps).
Proof.
  revert acc. induction comps as [|c comps IH]; intros acc; cbn [fold_left map].
  - cbn. tauto.
  - rewrite IH, assoc_set_keys.
    destruct (assoc acc (SVGComponent.id c)) as [v|] eqn:E.
    + rewrite bool_decide_eq_true_2 by eauto.
      assert (In (SVGComponent.id c) (map fst acc)).
      { apply assoc_in in E. apply in_map_iff. exists (SVGComponent.id c, v).
        split; [reflexivity|exact E]. }
      cbn. split; [tauto|]. intros [?|[<-|?]]; tauto.
    + rewrite bool_decide_eq_false_2 by (intros [? ?]; discriminate).
      rewrite in_app_iff. cbn. tauto.
Qed.

Lemma suggested_fold_nodup (comps : list component)
    (acc : list (string * json)) :
  List.NoDup (map fst acc) ->
  List.NoDup (map fst (fold_left
                    (fun m c =>
                       assoc_set m (SVGComponent.id c)
                         (SVGToJUCEConverter.suggest_entry c))
                    comps acc)).
Proof.
  revert acc. induction comps as [|c comps IH]; intros acc H; [exact H|].
  cbn [fold_left]. apply IH. rewrite assoc_set_keys.
  destruct (assoc acc (SVGComponent.id c)) as [v|] eqn:E.
  - rewrite bool_decide_eq_true_2 by eauto. exact H.
  - rewrite bool_decide_eq_false_2 by (intros [? ?]; discriminate).
    apply assoc_none_keys in E.
    apply List.NoDup_app; [exact H | repeat constructor; intros [] |].
    intros k Hk [<-|[]]. exact (E Hk).
Qed.

Lemma suggested_fold_dicts (comps : list component)
    (acc : list (string * json)) :
  all_dicts acc ->
  all_dicts (fold_left
               (fun m c =>
                  assoc_set m (SVGComponent.id c)
                    (SVGToJUCEConverter.suggest_entry c))
               comps acc).
Proof.
  revert acc. induction comps as [|c comps IH]; intros acc H; [exact H|].
  cbn [fold_left]. apply IH. clear IH.
  induction H as [|[k v] acc Hv Hacc IHacc]; cbn [assoc_set].
  - constructor; [|constructor]. eexists. reflexivity.
  - destruct (String.eqb k (SVGComponent.id c)).
    + constructor; [eexists; reflexivity | assumption].
    + constructor; assumption.
Qed.



Section InitMore.
Context {rt : PyRuntime}.


(** The start of [main] when the drawing is there: the converter is built
    from the drawing, with a mapper that holds no entry. *)
Lemma main_builds_converter (script_dir : string) (w : World) (root : Element) :
  files w !! pathlib_join script_dir "SR.svg" = Some (XmlFile root) ->
  path_exists (pathlib_join script_dir "SR.svg") w = (Ret true, w)
  /\ SVGToJUCEConverter.__init__ (pathlib_join script_dir "SR.svg")
       (pathlib_join script_dir "component_mapping.json")
       (pathlib_join script_dir "generated") w
     = (Ret (SVGToJUCEConverter.mk (pathlib_join script_dir "SR.svg")
               (pathlib_join script_dir "component_mapping.json")
               (pathlib_join script_dir "generated")
               (SVGToJUCEConverter.mk_parser
                  (pathlib_join script_dir "SR.svg") root)
               (ComponentMapper.__init__
                  (pathlib_join script_dir "component_mapping.json"))
               (CoordinateConverter.mk 225 190 850 720
                  (inject_Z 850 / 225) (inject_Z 720 / 190))), w).
Proof.
  intros Hf. split; [exact (path_exists_file _ _ _ Hf)|].
  unfold SVGToJUCEConverter.__init__, SVGToJUCEConverter.new_parser,
    bind, read_file.
  rewrite Hf. reflexivity.
Qed.







End InitMore.

(** ** Mapping entries that are no dictionaries *)

Section EntriesMore.
Context {rt : PyRuntime}.

(** X12. A mapping file with an entry that is no dictionary (a number, a
    string, [null], a list) stops [validate]: after the lines on parsing and
    the warning on the unmapped components it raises [AttributeError], and
    none of the later checks is reported. *)
Theorem validate_stops_at_non_dictionary_entry (self : SVGToJUCEConverter.t)
    (w : World) (text : string) (d kvs : list (string * json))
    (comps : list component) :
  files w !! ComponentMapper.mapping_file (SVGToJUCEConverter.mapper self)
    = Some (TextFile text) ->
  json_loads text = Some (JObj d) ->
  assoc d "components" = Some (JObj kvs) ->
  Exists (fun kv => forall e, snd kv <> JObj e) kvs ->
  SVGParser.parse (SVGToJUCEConverter.root (SVGToJUCEConverter.parser self))
    = Ret comps ->
  SVGToJUCEConverter.validate self w
  = (Raise AttributeError,
     emit
       (["Parsing " +:+ SVGToJUCEConverter.svg_path self +:+ "...";
         "Found " +:+ pretty (length comps) +:+ " components" +:+ newline]
        ++ warn_lines " unmapped SVG components:"
             (List.filter (fun i => bool_decide (assoc kvs i = None))
                (map SVGComponent.id comps)))
       w).
Proof.
  intros Hf Hd Hc Hex Hp.
  unfold SVGToJUCEConverter.validate.
  rewrite (bind_run _ _ _ _ _ (load_present _ _ _ _ Hf Hd)). cbv zeta.
  rewrite Hc. change (default (JObj []) (Some (JObj kvs))) with (JObj kvs).
  cbn [ComponentMapper.mapping].
  replace (truthy (JObj kvs)) with true
    by (destruct Hex; reflexivity).
  cbn [negb SVGToJUCEConverter.svg_path SVGToJUCEConverter.set_mapper
       SVGToJUCEConverter.parser SVGToJUCEConverter.root].
  rewrite (bind_run _ _ _ _ _ (print_run _ _)).
  rewrite Hp, (bind_run _ _ _ _ _ (lift_run _ _)).
  rewrite (bind_run _ _ _ _ _ (print_run _ _)).
  rewrite find_unmapped_dict, (bind_run _ _ _ _ _ (lift_run _ _)).
  rewrite (bind_run _ _ _ _ _ (warn_run _ _ _)).
  unfold SVGToJUCEConverter.find_unknown_type. cbn [py_items obind].
  rewrite (unknown_entries_non_dict kvs Hex).
  unfold bind, lift. rewrite !emit_emit. reflexivity.
Qed.

End EntriesMore.

(** ** When the generators return *)






Lemma in_insert_sorted {A} (kv x : string * A) (l : list (string * A)) :
  In x (insert_sorted kv l) <-> x = kv \/ In x l.
Proof.
  induction l as [|kv' l IH]; cbn.
  - intuition.
  - destruct (String.leb (fst kv) (fst kv')); cbn; [intuition|].
    rewrite IH. intuition.
Qed.

Lemma in_sorted_items {A} (x : string * A) (l : list (string * A)) :
  In x (sorted_items l) <-> In x l.
Proof.
  induction l as [|kv l IH]; cbn; [tauto|].
  rewrite in_insert_sorted, IH. intuition.
Qed.


Section GeneratorsReturn.
Context {rt : PyRuntime}.






















End GeneratorsReturn.

(** ** One component in the three snippets *)

Section LinesMore.
Context {rt : PyRuntime}.


End LinesMore.

(** ** The sections of the snippets *)

Lemma assoc_set_nodup {A} (kvs : list (string * A)) (k : string) (v : A) :
  List.NoDup (map fst kvs) -> List.NoDup (map fst (assoc_set kvs k v)).
Proof.
  intros H. rewrite assoc_set_keys.
  destruct (assoc kvs k) as [v0|] eqn:E.
  - rewrite bool_decide_eq_true_2 by eauto. exact H.
  - rewrite bool_decide_eq_false_2 by (intros [? ?]; discriminate).
    apply assoc_none_keys in E.
    apply List.NoDup_app; [exact H | repeat constructor; intros [] |].
    intros k' Hk [<-|[]]. exact (E Hk).
Qed.

Lemma in_assoc_nodup {A} (kvs : list (string * A)) (k : string) (v : A) :
  List.NoDup (map fst kvs) -> In (k, v) kvs -> assoc kvs k = Some v.
Proof.
  induction kvs as [|[k0 v0] kvs IH]; cbn; [intros _ []|].
  intros Hnd Hin. apply List.NoDup_cons_iff in Hnd as [Hk0 Hnd].
  destruct (String.eqb_spec k0 k) as [->|Hk].
  - destruct Hin as [[= ->]|Hin]; [reflexivity|].
    exfalso. apply Hk0. apply in_map_iff. exists (k, v). split; [reflexivity|].
    exact Hin.
  - destruct Hin as [[= -> _]|Hin]; [contradiction|]. exact (IH Hnd Hin).
Qed.

(** The dictionary [sections] after the loop over [comps], started from
    [acc]: under each key the components listed under it, after those that
    were there. *)
Lemma group_fold_lookup (comps : list component)
    (acc : list (string * list component)) (s : string) :
  assoc
    (fold_left
       (fun sections comp =>
          let section :=
            if String.eqb (SVGComponent.section comp) "" then "Other"
            else SVGComponent.section comp in
          assoc_set sections section
            (default [] (assoc sections section) ++ [comp]))
       comps acc) s
  = match assoc acc s, listed_under s comps with
    | None, [] => None
    | o, l => Some (default [] o ++ l)
    end.
Proof.
  revert acc. induction comps as [|c comps IH]; intros acc.
  - cbn. destruct (assoc acc s) as [old|]; [|reflexivity].
    change (default [] (Some old)) with old. rewrite app_nil_r. reflexivity.
  - cbn [fold_left]. rewrite IH. cbv zeta.
    change (if String.eqb (SVGComponent.section c) "" then "Other"
            else SVGComponent.section c) with (section_key c).
    rewrite assoc_assoc_set. unfold listed_under. cbn [List.filter].
    destruct (String.eqb_spec (section_key c) s) as [<-|Hk].
    + change (default [] (Some ?x)) with x. rewrite <- app_assoc. cbn [app].
      destruct (assoc acc (section_key c)) as [old|];
        [change (default [] (Some old)) with old|]; reflexivity.
    + reflexivity.
Qed.

Lemma group_fold_nodup (comps : list component)
    (acc : list (string * list component)) :
  List.NoDup (map fst acc) ->
  List.NoDup
    (map fst
       (fold_left
          (fun sections comp =>
             let section :=
               if String.eqb (SVGComponent.section comp) "" then "Other"
               else SVGComponent.section comp in
             assoc_set sections section
               (default [] (assoc sections section) ++ [comp]))
          comps acc)).
Proof.
  revert acc. induction comps as [|c comps IH]; intros acc H; [exact H|].
  cbn [fold_left]. apply IH. cbv zeta. apply assoc_set_nodup. exact H.
Qed.

Lemma insert_sorted_perm {A} (kv : string * A) (l : list (string * A)) :
  Permutation (insert_sorted kv l) (kv :: l).
Proof.
  induction l as [|kv' l IH]; cbn; [reflexivity|].
  destruct (String.leb (fst kv) (fst kv')); [reflexivity|].
  rewrite IH. apply perm_swap.
Qed.

Lemma sorted_items_perm {A} (l : list (string * A)) :
  Permutation (sorted_items l) l.
Proof.
  induction l as [|kv l IH]; cbn; [reflexivity|].
  rewrite insert_sorted_perm, IH. reflexivity.
Qed.

Lemma insert_sorted_sorted {A} (kv : string * A) (l : list (string * A)) :
  Sorted (fun a b => String.leb (fst a) (fst b) = true) l ->
  Sorted (fun a b => String.leb (fst a) (fst b) = true) (insert_sorted kv l).
Proof.
  induction 1 as [|kv' l Hs IH Hhd]; cbn.
  - repeat constructor.
  - destruct (String.leb (fst kv) (fst kv')) eqn:E.
    + constructor; [constructor; assumption|]. constructor. exact E.
    + constructor; [exact IH|].
      assert (E' : String.leb (fst kv') (fst kv) = true).
      { destruct (String.leb_total (fst kv) (fst kv')); congruence. }
      destruct Hhd as [|kv2 l' H2]; cbn.
      * constructor. exact E'.
      * destruct (String.leb (fst kv) (fst kv2)); constructor; assumption.
Qed.

Lemma sorted_items_sorted {A} (l : list (string * A)) :
  Sorted (fun a b => String.leb (fst a) (fst b) = true) (sorted_items l).
Proof.
  induction l as [|kv l IH]; cbn; [constructor|].
  apply insert_sorted_sorted. exact IH.
Qed.

(** X15. The sections the header and the layout snippets run through:
    every section appears once, in ascending order of its name, a
    component without a section falling under [Other]; and the list of a
    section holds exactly the components of that section, in the order of
    the parsed list, so each component is in one list, once. *)
Theorem sections_are_sorted_and_partition (comps : list component) :
  Sorted (fun a b => String.leb (fst a) (fst b) = true)
    (sorted_items (group_by_section comps))
  /\ List.NoDup (map fst (sorted_items (group_by_section comps)))
  /\ (forall s cs,
        In (s, cs) (sorted_items (group_by_section comps))
        <-> cs <> [] /\ cs = listed_under s comps)
  /\ (forall c, In c comps ->
        In (section_key c, listed_under (section_key c) comps)
          (sorted_items (group_by_section comps))
        /\ In c (listed_under (section_key c) comps)).
Proof.
  assert (Hnd : List.NoDup (map fst (group_by_section comps)))
    by (apply group_fold_nodup; constructor).
  assert (Hlook : forall s,
            assoc (group_by_section comps) s
            = match listed_under s comps with
              | [] => None
              | l => Some l
              end).
  { intros s. unfold group_by_section. rewrite group_fold_lookup. cbn.
    destruct (listed_under s comps); reflexivity. }
  assert (Hin : forall s cs,
            In (s, cs) (sorted_items (group_by_section comps))
            <-> cs <> [] /\ cs = listed_under s comps).
  { intros s cs. rewrite in_sorted_items. split.
    - intros H. apply (in_assoc_nodup _ _ _ Hnd) in H. rewrite Hlook in H.
      destruct (listed_under s comps) as [|c0 l]; [discriminate|].
      injection H as <-. split; [discriminate|reflexivity].
    - intros [Hne ->]. apply assoc_in. rewrite Hlook.
      destruct (listed_under s comps); [contradiction|reflexivity]. }
  split; [apply sorted_items_sorted|].
  split.
  { eapply Permutation_NoDup; [|exact Hnd].
    apply Permutation_map. symmetry. apply sorted_items_perm. }
  split; [exact Hin|].
  intros c Hc.
  assert (Hl : In c (listed_under (section_key c) comps)).
  { apply filter_In. split; [exact Hc|]. apply String.eqb_refl. }
  split; [|exact Hl].
  apply Hin. split; [|reflexivity]. intros E. rewrite E in Hl. destruct Hl.
Qed.

(** ** A mapping file that cannot be used *)

Section MappingFileMore.
Context {rt : PyRuntime}.

Lemma load_not_json (m : ComponentMapper.t) (w : World) (text : string) :
  files w !! ComponentMapper.mapping_file m = Some (TextFile text) ->
  json_loads text = None ->
  ComponentMapper.load m w = (Raise JSONDecodeError, w).
Proof.
  intros Hf Hj. unfold ComponentMapper.load.
  rewrite (bind_run _ _ _ _ _ (path_exists_file _ _ _ Hf)).
  unfold bind, read_file. rewrite Hf, Hj. reflexivity.
Qed.

Lemma load_not_object (m : ComponentMapper.t) (w : World) (text : string)
    (v : json) :
  files w !! ComponentMapper.mapping_file m = Some (TextFile text) ->
  json_loads text = Some v ->
  (forall d, v <> JObj d) ->
  ComponentMapper.load m w = (Raise AttributeError, w).
Proof.
  intros Hf Hj Hv. unfold ComponentMapper.load.
  rewrite (bind_run _ _ _ _ _ (path_exists_file _ _ _ Hf)).
  unfold bind, read_file. rewrite Hf, Hj.
  destruct v; try reflexivity. exfalso. eapply Hv. reflexivity.
Qed.

(** The modes of [main] other than [--init] start by loading the mapping:
    when that raises, so does the run, with nothing printed or written. *)
Lemma main_stops_at_load (script_dir : string) (args : Args) (w : World)
    (root : Element) (e : exn) :
  init args = false ->
  files w !! pathlib_join script_dir "SR.svg" = Some (XmlFile root) ->
  ComponentMapper.load
    (ComponentMapper.__init__
       (pathlib_join script_dir "component_mapping.json")) w
  = (Raise e, w) ->
  main script_dir args w = (Raise e, w).
Proof.
  intros Hi Hf Hl.
  destruct (main_builds_converter script_dir w root Hf) as [He Hc].
  unfold main. cbv zeta.
  rewrite (bind_run _ _ _ _ _ He). cbn [negb].
  rewrite (bind_run _ _ _ _ _ Hc), Hi.
  destruct (validate args); [|destruct (dry_run args)];
    unfold SVGToJUCEConverter.validate, SVGToJUCEConverter.generate_code, bind;
    cbn [SVGToJUCEConverter.mapper]; rewrite Hl; reflexivity.
Qed.

(** X16. A mapping file that is there but is no JSON text, or whose JSON
    value is no object, stops every mode of [main] except [--init]: the
    run raises [JSONDecodeError], respectively [AttributeError], before
    anything is printed, parsed or written. *)
Theorem unusable_mapping_file_stops_run (script_dir : string) (args : Args)
    (w : World) (root : Element) (text : string) :
  init args = false ->
  files w !! pathlib_join script_dir "SR.svg" = Some (XmlFile root) ->
  files w !! pathlib_join script_dir "component_mapping.json"
    = Some (TextFile text) ->
  (json_loads text = None ->
   main script_dir args w = (Raise JSONDecodeError, w))
  /\ (forall v, json_loads text = Some v -> (forall d, v <> JObj d) ->
        main script_dir args w = (Raise AttributeError, w)).
Proof.
  intros Hi Hf Hm. split.
  - intros Hj. apply (main_stops_at_load script_dir args w root _ Hi Hf).
    apply (load_not_json _ w text); [exact Hm | exact Hj].
  - intros v Hj Hv. apply (main_stops_at_load script_dir args w root _ Hi Hf).
    apply (load_not_object _ w text v); [exact Hm | exact Hj | exact Hv].
Qed.


End MappingFileMore.

(** ** The suggested types and the check of the types *)

Lemma suggested_entry_type (c : component) :
  entry_type (SVGToJUCEConverter.suggest_entry c)
  = JStr (ComponentMapper.detect_component_type c).
Proof. reflexivity. Qed.

(** X18. After [--init], the entries that [validate] lists as of type
    [Unknown] are exactly the parsed identifiers for which
    [detect_component_type] finds no type.  The suggested entries are all
    dictionaries, so the check of the types does not raise on them, and
    the generators can use the entry of every parsed component. *)
Theorem unknown_after_init_is_undetected (comps : list component) :
  (forall k,
     In k (unknown_keys (suggested_mapping comps))
     <-> exists c, In c comps /\ SVGComponent.id c = k
                   /\ ComponentMapper.detect_component_type c = "Unknown")
  /\ SVGToJUCEConverter.find_unknown_type (JObj (suggested_mapping comps))
     = Ret (unknown_keys (suggested_mapping comps))
  /\ forallb
       (fun c => usable_entry (assoc (suggested_mapping comps)
                                 (SVGComponent.id c))) comps = true.
Proof.
  assert (Hnd : List.NoDup (map fst (suggested_mapping comps)))
    by (apply suggested_fold_nodup; constructor).
  split; [|split].
  - intros k. unfold unknown_keys. rewrite in_map_iff. split.
    + intros ([k' v] & <- & Hin). apply filter_In in Hin as [Hin Ht].
      cbn [fst snd] in *.
      assert (Hk : In k' (map SVGComponent.id comps)).
      { assert (Hk : In k' (map fst (suggested_mapping comps))).
        { apply in_map_iff. exists (k', v). split; [reflexivity|exact Hin]. }
        apply (proj1 (suggested_fold_keys comps [] k')) in Hk.
        destruct Hk as [[]|Hk]. exact Hk. }
      apply in_map_iff in Hk as (c & <- & Hc).
      apply (in_assoc_nodup _ _ _ Hnd) in Hin.
      unfold suggested_mapping in Hin.
      rewrite (suggested_fold_in comps [] c Hc) in Hin. injection Hin as <-.
      rewrite suggested_entry_type in Ht. cbn [is_str] in Ht.
      apply String.eqb_eq in Ht. exists c. auto.
    + intros (c & Hc & <- & Ht).
      exists (SVGComponent.id c, SVGToJUCEConverter.suggest_entry c).
      split; [reflexivity|]. apply filter_In. split.
      * apply assoc_in. apply suggested_fold_in. exact Hc.
      * cbn [snd]. rewrite suggested_entry_type, Ht. reflexivity.
  - unfold SVGToJUCEConverter.find_unknown_type. cbn [py_items obind].
    apply unknown_entries_dicts_eq. apply suggested_fold_dicts. constructor.
  - apply forallb_forall. intros c Hin. unfold suggested_mapping.
    rewrite (suggested_fold_in comps [] c Hin). reflexivity.
Qed.

(** ** The suggested labels *)

(** Replacing the underscores is a map over the characters. *)
Lemma replace_underscores (s : string) :
  Str.replace s "_" " "
  = Str.map_ascii (fun c => if Ascii.eqb c "_" then " "%char else c) s.
Proof.
  unfold Str.replace.
  induction s as [|c s IH]; [reflexivity|].
  cbn [Str.replace_from Str.map_ascii String.prefix String.length Nat.sub].
  rewrite <- IH.
  destruct (Ascii.eqb_spec c "_") as [->|Hc].
  - destruct (ascii_dec "_" "_") as [_|N]; [|contradiction N; reflexivity].
    replace (String.prefix "" s) with true by (destruct s; reflexivity).
    reflexivity.
  - destruct (ascii_dec "_" c) as [E|_]; [congruence|reflexivity].
Qed.

Lemma upper_is_display (c : ascii) :
  display_char
    (Str.upper_ascii (if Ascii.eqb c "_" then " "%char else c)) = true.
Proof. destruct c as [[] [] [] [] [] [] [] []]; reflexivity. Qed.

(** X20. A suggested label is ready for display: whatever the identifier,
    it holds no underscore and no lower-case letter of ASCII. *)
Theorem suggested_label_is_upper_case (svg_id : string) :
  forallb display_char
    (list_ascii_of_string (SVGToJUCEConverter._suggest_label svg_id)) = true.
Proof.
  unfold SVGToJUCEConverter._suggest_label. cbv zeta.
  repeat match goal with
         | |- context [if String.eqb ?a ?b then _ else _] =>
             destruct (String.eqb a b); [reflexivity|]
         end.
  rewrite replace_underscores. unfold Str.upper.
  induction (Str.replace _ "_btn" "") as [|c s IH]; [reflexivity|].
  cbn [Str.map_ascii list_ascii_of_string forallb].
  rewrite upper_is_display. exact IH.
Qed.

(** ** The further properties on the samples *)

Lemma to_juce_monotone_witness :
  (fst (CoordinateConverter.to_juce default_converter 10 30)
   <= fst (CoordinateConverter.to_juce default_converter 20 40))%Z
  /\ (snd (CoordinateConverter.to_juce default_converter 10 30)
      <= snd (CoordinateConverter.to_juce default_converter 20 40))%Z
  /\ (fst (CoordinateConverter.size_to_juce default_converter 10 30)
      <= fst (CoordinateConverter.size_to_juce default_converter 20 40))%Z
  /\ (snd (CoordinateConverter.size_to_juce default_converter 10 30)
      <= snd (CoordinateConverter.size_to_juce default_converter 20 40))%Z.
Proof.
  apply (to_juce_monotone 225 190 850 720 default_converter 10 20 30 40);
    [reflexivity | reflexivity | reflexivity | reflexivity | reflexivity
    | discriminate | discriminate].
Defined.

Lemma to_juce_in_canvas_witness :
  CoordinateConverter.to_juce default_converter 0 0 = (0, 0)%Z
  /\ CoordinateConverter.to_juce default_converter 225 190 = (850, 720)%Z
  /\ (0 <= fst (CoordinateConverter.to_juce default_converter (81 # 2) 30)
      <= 850)%Z
  /\ (0 <= snd (CoordinateConverter.to_juce default_converter (81 # 2) 30)
      <= 720)%Z.
Proof.
  destruct (to_juce_in_canvas 225 190 850 720 default_converter
              eq_refl eq_refl eq_refl eq_refl eq_refl) as (H0 & H1 & H2).
  split; [exact H0|]. split; [exact H1|].
  apply (H2 (81 # 2)%Q 30%Q); split; discriminate.
Defined.

Lemma parsed_records_are_read_from_elements_witness :
  exists e,
    In e (iter svg_circle stacked_knobs) /\ circle_skipped e = false
    /\ get_str e "id" = "knob_pan"
    /\ SVGParser.get_float (rt := ref_runtime) e "cx" = Ret (81 # 2)%Q
    /\ SVGParser.get_float (rt := ref_runtime) e "cy" = Ret 30%Q
    /\ SVGParser.get_float (rt := ref_runtime) e "r" = Ret 6%Q.
Proof.
  destruct (parsed_records_are_read_from_elements (rt := ref_runtime)
              stacked_knobs stacked_knobs_comps knob_pan_comp
              eq_refl (or_introl eq_refl))
    as [(e & He & Hk & _ & Hid & Hx & Hy & Hr & _)
       |(e & _ & _ & Ht & _)].
  - exists e. cbn in Hid. auto 10.
  - discriminate Ht.
Defined.

Lemma section_is_last_labelled_group_witness :
  SVGComponent.section lfo_rate_comp
  = List.last (labels_around nested_groups "knob_lfo_rate") ""
  /\ SVGComponent.section play_btn_comp
     = List.last (labels_around nested_groups "play_btn") "".
Proof.
  split.
  - exact (section_is_last_labelled_group (rt := ref_runtime) nested_groups
             [lfo_rate_comp; play_btn_comp] lfo_rate_comp
             eq_refl (or_introl eq_refl)).
  - exact (section_is_last_labelled_group (rt := ref_runtime) nested_groups
             [lfo_rate_comp; play_btn_comp] play_btn_comp
             eq_refl (or_intror (or_introl eq_refl))).
Defined.

Lemma generation_writes_three_files_witness :
  exists header constructor resized,
    CodeGenerator.generate_header_snippet (rt := ref_runtime) sample_generator
    = Ret header
    /\ CodeGenerator.generate_constructor_snippet (rt := ref_runtime)
         sample_generator = Ret constructor
    /\ CodeGenerator.generate_resized_snippet (rt := ref_runtime)
         sample_generator = Ret resized
    /\ files generated_world
       = <[os_path_join sample_output_dir "resized_snippet.cpp"
           := TextFile resized]>
           (<[os_path_join sample_output_dir "constructor_snippet.cpp"
              := TextFile constructor]>
              (<[os_path_join sample_output_dir "header_snippet.hpp"
                 := TextFile header]> (files mapped_world)))
    /\ dirs generated_world = {[sample_output_dir]} ∪ dirs mapped_world.
Proof.
  destruct (generation_writes_three_files (rt := ref_runtime)
              (converter_for stacked_knobs) loaded_converter
              mapped_world generated_world)
    as (comps & header & constructor & resized
        & Hp & Hh & Hc & Hr & Hf & Hd);
    [vm_compute; reflexivity | reflexivity |].
  injection Hp as <-.
  exists header, constructor, resized. auto.
Defined.




Lemma validate_stops_at_non_dictionary_entry_witness :
  SVGToJUCEConverter.validate (rt := ref_runtime)
    (converter_for stacked_knobs) world_with_text_entry
  = (Raise AttributeError,
     emit
       ["Parsing /plugin/Source/Parser/SR.svg...";
        "Found 4 components" +:+ newline;
        "WARNING: 2 unmapped SVG components:";
        "  - knob_life";
        "  - status_display";
        ""]
       world_with_text_entry).
Proof.
  exact (validate_stops_at_non_dictionary_entry (rt := ref_runtime)
           (converter_for stacked_knobs) world_with_text_entry
           (mapping_text entries_with_text)
           (document_of entries_with_text)
           entries_with_text stacked_knobs_comps
           eq_refl eq_refl eq_refl
           ltac:(constructor 2; constructor 1; intros e; discriminate)
           eq_refl).
Defined.



Lemma unusable_mapping_file_stops_run_witness :
  main (rt := ref_runtime) sample_dir (mkArgs false false true)
    (world_with stacked_knobs (Some "not json"))
  = (Raise JSONDecodeError, world_with stacked_knobs (Some "not json"))
  /\ main (rt := ref_runtime) sample_dir (mkArgs false false false)
       (world_with stacked_knobs (Some "[1, 2]"))
     = (Raise AttributeError, world_with stacked_knobs (Some "[1, 2]")).
Proof.
  split.
  - apply (proj1 (unusable_mapping_file_stops_run (rt := ref_runtime)
                    sample_dir (mkArgs false false true)
                    (world_with stacked_knobs (Some "not json"))
                    stacked_knobs "not json" eq_refl eq_refl eq_refl)).
    reflexivity.
  - apply (proj2 (unusable_mapping_file_stops_run (rt := ref_runtime)
                    sample_dir (mkArgs false false false)
                    (world_with stacked_knobs (Some "[1, 2]"))
                    stacked_knobs "[1, 2]" eq_refl eq_refl eq_refl)
             (JArr [JInt 1; JInt 2]));
      [reflexivity | discriminate].
Defined.


